(** * Dining Match backend: availability, search and reservations

    A shallow embedding of the request handlers of [server.js]
    ([GET /api/restaurants], [POST /api/reservations] and the four handlers
    of the restaurant resource) and of the helpers they call
    ([getDayOfWeek], [isRestaurantOpen], [isOnBudget], [validateDate],
    [parseAddress], [transformRestaurantToFrontendFormat], [getNextId],
    [validateRestaurant]), followed by the properties of the availability
    and filtering engine and of the record store.

    Conventions of the embedding.
    - The module-level array [restaurantsData] is threaded explicitly: a
      handler that mutates it returns the new array.
    - The wall clock ([new Date()]) is the argument [now], in milliseconds
      since the epoch.
    - JavaScript numbers are exact: integers are [Z], ratings are [Q]; the
      rounding of binary64 is not modelled.
    - Strings are sequences of one-byte characters, compared by character
      code as [<] and [>=] do on JavaScript strings. *)

From Stdlib Require Import ZArith QArith Bool List Ascii String DecimalString Lia.
From Stdlib Require Import DecimalPos.
From stdpp Require Import base option list gmap strings.

Close Scope Q_scope.
Local Open Scope string_scope.
Local Open Scope Z_scope.

(** * The program *)

(** ** JavaScript values and built-ins *)

Module JS.

(** The JSON scalars a request body can carry in a field; its numbers are
    integers. *)
Inductive value : Type :=
  | Undefined
  | Null
  | Boolean (b : bool)
  | Number (n : Z)
  | Str (s : string).

(** [ToBoolean]: what [!v], [v || d] and [if (v)] look at. *)
Definition truthy (v : value) : bool :=
  match v with
  | Undefined | Null => false
  | Boolean b => b
  | Number n => negb (n =? 0)
  | Str s => negb (s =? "")%string
  end.

(** [ToString], applied by [parseInt] and by string concatenation.  A
    number is printed with all its digits, as JavaScript prints the integers
    below [10^21]. *)
Definition ToString (v : value) : string :=
  match v with
  | Undefined => "undefined"
  | Null => "null"
  | Boolean true => "true"
  | Boolean false => "false"
  | Number n => NilZero.string_of_int (Z.to_int n)
  | Str s => s
  end.

(** Truthiness of an optional string ([undefined] when absent). *)
Definition truthy_str (o : option string) : bool :=
  match o with
  | Some s => negb (s =? "")%string
  | None => false
  end.

(** [o || d] on an optional integer field: [0] is as falsy as [undefined]. *)
Definition or_int (o : option Z) (d : Z) : Z :=
  match o with
  | Some n => if n =? 0 then d else n
  | None => d
  end.

(** [a || b] on two optional string fields; the result may still be absent. *)
Definition or_str (a b : option string) : option string :=
  if truthy_str a then a else b.

(** String comparison by character code: [a < b] and [a >= b]. *)
Definition lt (a b : string) : bool := String.ltb a b.
Definition ge (a b : string) : bool := negb (String.ltb a b).

(** *** Characters *)

Definition is_digit (c : ascii) : bool :=
  let n := nat_of_ascii c in (48 <=? n)%nat && (n <=? 57)%nat.

Definition digit_val (c : ascii) : Z := Z.of_nat (nat_of_ascii c) - 48.

Definition is_char (c d : ascii) : bool := (nat_of_ascii c =? nat_of_ascii d)%nat.

(** Value of [c] as a digit in [radix] (10 or 16), if it is one. *)
Definition radix_digit (radix : Z) (c : ascii) : option Z :=
  let n := Z.of_nat (nat_of_ascii c) in
  let v := if (48 <=? n) && (n <=? 57) then Some (n - 48)
           else if (97 <=? n) && (n <=? 122) then Some (n - 87)
           else if (65 <=? n) && (n <=? 90) then Some (n - 55)
           else None in
  match v with
  | Some d => if d <? radix then Some d else None
  | None => None
  end.

(** White space and line terminators among the one-byte characters. *)
Definition is_space (c : ascii) : bool :=
  let n := nat_of_ascii c in
  ((9 <=? n)%nat && (n <=? 13)%nat) || (n =? 32)%nat.

Fixpoint trim_start (s : string) : string :=
  match s with
  | String c s' => if is_space c then trim_start s' else s
  | EmptyString => s
  end.

(** Longest prefix of [s] made of digits of [radix], read as a number;
    [None] when that prefix is empty. *)
Fixpoint digits_prefix (radix : Z) (acc : option Z) (s : string) : option Z :=
  match s with
  | String c s' =>
      match radix_digit radix c with
      | Some d => digits_prefix radix (Some (default 0 acc * radix + d)) s'
      | None => acc
      end
  | EmptyString => acc
  end.

(** [parseInt(s)] without a radix argument; [None] is [NaN]. *)
Definition parseInt_string (s : string) : option Z :=
  let s1 := trim_start s in
  let '(sign, s2) :=
    match s1 with
    | String "-" r => (-1, r)
    | String "+" r => (1, r)
    | _ => (1, s1)
    end in
  let '(radix, s3) :=
    match s2 with
    | String "0" (String "x" r) | String "0" (String "X" r) => (16, r)
    | _ => (10, s2)
    end in
  match digits_prefix radix None s3 with
  | Some n => Some (sign * n)
  | None => None
  end.

Definition parseInt (v : value) : option Z := parseInt_string (ToString v).

(** *** Numbers with a fraction: [parseFloat] *)

(** The results of [parseFloat]. *)
Inductive number : Type :=
  | NaN
  | Infinity (negative : bool)
  | Finite (q : Q).

Definition isNaN (x : number) : bool :=
  match x with NaN => true | _ => false end.

(** [m * 10^k] as a rational. *)
Definition scale10 (m k : Z) : Q :=
  if 0 <=? k then Qmake (m * 10 ^ k) 1 else Qmake m (Z.to_pos (10 ^ (- k))).

(** Reads decimal digits: the number read so far, how many digits were read,
    and the rest of the string. *)
Fixpoint take_digits (acc : Z) (n : nat) (s : string) : Z * nat * string :=
  match s with
  | String c s' =>
      if is_digit c then take_digits (acc * 10 + digit_val c) (S n) s'
      else (acc, n, s)
  | EmptyString => (acc, n, s)
  end.

Definition take_sign (s : string) : bool * string :=
  match s with
  | String "-" r => (true, r)
  | String "+" r => (false, r)
  | _ => (false, s)
  end.

(** The exponent part [e[+-]ddd] at the head of [s], or 0 when there is no
    well-formed one. *)
Definition exponent_part (s : string) : Z :=
  match s with
  | String c r =>
      if is_char c "e" || is_char c "E" then
        let '(eneg, r') := take_sign r in
        let '(ev, ne, _) := take_digits 0 0 r' in
        if (ne =? 0)%nat then 0 else if eneg then - ev else ev
      else 0
  | EmptyString => 0
  end.

(** [parseFloat(s)]: leading white space, then the longest prefix that is a
    decimal literal. *)
Definition parseFloat (s : string) : number :=
  let '(neg, s2) := take_sign (trim_start s) in
  if String.prefix "Infinity" s2 then Infinity neg
  else
    let '(i, ni, s3) := take_digits 0 0 s2 in
    let '(m, nf, s4) :=
      match s3 with
      | String "." r => take_digits i 0 r
      | _ => (i, 0%nat, s3)
      end in
    if (ni + nf =? 0)%nat then NaN
    else Finite (scale10 ((if neg then -1 else 1) * m)
                         (exponent_part s4 - Z.of_nat nf)).

(** [a >= m] for a finite [a] and a parsed [m]; comparisons with [NaN] are
    false. *)
Definition ge_number (a : Q) (m : number) : bool :=
  match m with
  | NaN => false
  | Infinity negative => negative
  | Finite q => Qle_bool q a
  end.

(** Truthiness of an optional number: [0] is falsy. *)
Definition truthy_num (o : option Q) : bool :=
  match o with
  | Some q => negb (Qeq_bool q 0)
  | None => false
  end.

(** *** Dates

    Only one shape of string reaches the [Date] constructor in this program:
    a date that passed [/^\d{4}-\d{2}-\d{2}$/], followed by
    ['T00:00:00Z']. *)

Definition msPerDay : Z := 86400000.

Definition InLeapYear (y : Z) : bool :=
  ((y mod 4 =? 0) && negb (y mod 100 =? 0)) || (y mod 400 =? 0).

(** Day number of 1 January of year [y]; day 0 is 1 January 1970. *)
Definition DayFromYear (y : Z) : Z :=
  365 * (y - 1970) + (y - 1969) / 4 - (y - 1901) / 100 + (y - 1601) / 400.

(** Days of the year before the first of month [m] (1 to 12). *)
Definition DaysBeforeMonth (leap : bool) (m : Z) : Z :=
  let l := if leap then 1 else 0 in
  match m with
  | 1 => 0 | 2 => 31 | 3 => 59 + l | 4 => 90 + l | 5 => 120 + l
  | 6 => 151 + l | 7 => 181 + l | 8 => 212 + l | 9 => 243 + l
  | 10 => 273 + l | 11 => 304 + l | _ => 334 + l
  end.

(** [MakeDay]: a day of the month past the end of the month runs on into
    the following month. *)
Definition MakeDay (y m d : Z) : Z :=
  DayFromYear y + DaysBeforeMonth (InLeapYear y) m + d - 1.

(** [/^\d{4}-\d{2}-\d{2}$/.test(s)] *)
Definition dateRegex_test (s : string) : bool :=
  match list_ascii_of_string s with
  | [y1; y2; y3; y4; h1; m1; m2; h2; d1; d2] =>
      forallb is_digit [y1; y2; y3; y4; m1; m2; d1; d2]
      && is_char h1 "-" && is_char h2 "-"
  | _ => false
  end.

Definition number_of_digits (s : string) : Z :=
  let '(n, _, _) := take_digits 0 0 s in n.

(** [new Date(s + 'T00:00:00Z').getTime()], in milliseconds; [None] is the
    time value [NaN] of an Invalid Date.  Node's engine (V8) accepts a month
    from 01 to 12 and a day from 01 to 31 whatever the month, and lets
    [MakeDay] carry the excess days over. *)
Definition Date_getTime (s : string) : option Z :=
  if dateRegex_test s then
    let y := number_of_digits (substring 0 4 s) in
    let m := number_of_digits (substring 5 2 s) in
    let d := number_of_digits (substring 8 2 s) in
    if (1 <=? m) && (m <=? 12) && (1 <=? d) && (d <=? 31)
    then Some (MakeDay y m d * msPerDay)
    else None
  else None.

(** [t.setUTCHours(0, 0, 0, 0)]: the start of the UTC day of [t]. *)
Definition setUTCHours0 (t : Z) : Z := t / msPerDay * msPerDay.

(** [getUTCDay()]: 0 is Sunday; 1 January 1970 was a Thursday. *)
Definition getUTCDay (t : Z) : Z := (t / msPerDay + 4) mod 7.

End JS.

(** ** Data model *)

(** One entry of [openingHours]: [{ closed: true }] or
    [{ open: "HH:MM", close: "HH:MM" }]; a missing [closed] is falsy. *)
Record DayHours : Type := {
  closed : bool;
  open : string;
  close : string;
}.

(** An address is free text or [{ street, number, city }]. *)
Inductive Address : Type :=
  | AddressText (text : string)
  | AddressObject (street : string) (number : option string) (city : string).

(** A record of [restaurantsData], with the fields the search and the
    reservation handlers read.  An optional field is [None] when it is
    [undefined] or [null].  Ids are numbers: the seed data, [getNextId] and
    the update handler produce nothing else. *)
Record Restaurant : Type := {
  id : Z;
  name : string;
  cuisine : string;
  address : Address;
  rating : option Q;
  price_range : option string;
  priceRange : option string;
  openingHours : option (gmap string DayHours);
  maxGuests : option Z;
  currGuests : option Z;
}.

(** [restaurant.currGuests = n] *)
Definition set_currGuests (n : Z) (r : Restaurant) : Restaurant :=
  {| id := id r; name := name r; cuisine := cuisine r; address := address r;
     rating := rating r; price_range := price_range r;
     priceRange := priceRange r; openingHours := openingHours r;
     maxGuests := maxGuests r; currGuests := Some n |}.

(** The shape sent to the frontend.  Of the fields that
    [transformRestaurantToFrontendFormat] fills, the record keeps those that
    carry an id, a rating, a price tier or a guest count. *)
Module Frontend.
Record Restaurant : Type := {
  id : string;
  name : string;
  cuisine : string;
  rating : option Q;
  priceRange : option string;
  maxGuests : Z;
  currGuests : Z;
}.
End Frontend.

(** ** Helpers of the server *)

Definition daysOfWeek : list string :=
  ["Sunday"; "Monday"; "Tuesday"; "Wednesday"; "Thursday"; "Friday"; "Saturday"].

(** [getDayOfWeek(date)]: [None] is the [undefined] that indexing
    [daysOfWeek] with [NaN] gives for an Invalid Date. *)
Definition getDayOfWeek (date : string) : option string :=
  match JS.Date_getTime date with
  | Some t => daysOfWeek !! Z.to_nat (JS.getUTCDay t)
  | None => None
  end.

(** [obj[key]] where [key] may be [undefined]: the property name is then the
    string ["undefined"]. *)
Definition property_key (key : option string) : string :=
  default "undefined" key.

Definition isRestaurantOpen (restaurant : Restaurant) (date time : string) : bool :=
  match openingHours restaurant with
  | None => false
  | Some hours =>
      let dayName := getDayOfWeek date in
      match hours !! property_key dayName with
      | None => false
      | Some hoursToday =>
          if closed hoursToday then false
          else
            let openTime := open hoursToday in
            let closeTime := close hoursToday in
            if JS.lt closeTime openTime
            then JS.ge time openTime || JS.lt time closeTime
            else JS.ge time openTime && JS.lt time closeTime
      end
  end.

(** [a === b] for an optional string [a] and a string [b]. *)
Definition strict_eq (a : option string) (b : string) : bool :=
  match a with
  | Some s => (s =? b)%string
  | None => false
  end.

Definition isOnBudget (restaurant : Restaurant) (budget : string) : bool :=
  strict_eq (JS.or_str (price_range restaurant) (priceRange restaurant)) budget.

(** The result of [validateDate]: [{ isValid: true }] or
    [{ isValid: false, error }]. *)
Inductive DateValidation : Type :=
  | Valid
  | Invalid (error : string).

Definition validateDate (now : Z) (dateString : string) : DateValidation :=
  if negb (JS.dateRegex_test dateString) then
    Invalid "Date must be in YYYY-MM-DD format"
  else
    match JS.Date_getTime dateString with
    | None => Invalid "Invalid date"
    | Some date =>
        let today := JS.setUTCHours0 now in
        let inputDate := JS.setUTCHours0 date in
        if inputDate <? today then Invalid "Date cannot be in the past"
        else Valid
    end.

Definition transformRestaurantToFrontendFormat (restaurant : Restaurant)
  : Frontend.Restaurant :=
  {| Frontend.id := JS.ToString (JS.Number (id restaurant));
     Frontend.name := name restaurant;
     Frontend.cuisine := cuisine restaurant;
     Frontend.rating := rating restaurant;
     Frontend.priceRange :=
       JS.or_str (price_range restaurant) (priceRange restaurant);
     Frontend.maxGuests := JS.or_int (maxGuests restaurant) 50;
     Frontend.currGuests := JS.or_int (currGuests restaurant) 0 |}.

(** ** Responses *)

(** One constructor per [return res.status(4xx).json(...)] of the two
    handlers. *)
Inductive ApiError : Type :=
  | MissingRequiredFields
  | DateRejected (error : string)
  | NumGuestsNotPositive
  | InvalidRestaurantIdFormat
  | RestaurantNotFound (restaurantId : JS.value)
  | RestaurantNotOpen
  | NotEnoughCapacity (availableCapacity guests : Z).

Definition status (e : ApiError) : Z :=
  match e with
  | RestaurantNotFound _ => 404
  | _ => 400
  end.

Definition message (e : ApiError) : string :=
  match e with
  | MissingRequiredFields =>
      "Missing required fields: restaurantId, date, time, and numGuests are required"
  | DateRejected error => error
  | NumGuestsNotPositive => "numGuests must be a positive number"
  | InvalidRestaurantIdFormat => "Invalid restaurant ID format"
  | RestaurantNotFound restaurantId =>
      "Restaurant with ID " ++ JS.ToString restaurantId ++ " not found"
  | RestaurantNotOpen => "Restaurant is not open at the requested date and time"
  | NotEnoughCapacity availableCapacity guests =>
      "Not enough capacity. Available: "
      ++ JS.ToString (JS.Number availableCapacity)
      ++ ", Requested: " ++ JS.ToString (JS.Number guests)
  end.

(** The failure kinds of the error taxonomy. *)
Inductive ErrorKind : Type :=
  | ValidationError
  | NotFoundError
  | CapacityExceededError
  | ClosedError.

Definition kind (e : ApiError) : ErrorKind :=
  match e with
  | MissingRequiredFields | DateRejected _ | NumGuestsNotPositive
  | InvalidRestaurantIdFormat => ValidationError
  | RestaurantNotFound _ => NotFoundError
  | RestaurantNotOpen => ClosedError
  | NotEnoughCapacity _ _ => CapacityExceededError
  end.

(** ** GET /api/restaurants *)

Definition lower (c : ascii) : ascii :=
  let n := nat_of_ascii c in
  if (65 <=? n)%nat && (n <=? 90)%nat then ascii_of_nat (n + 32) else c.

Fixpoint toLowerCase (s : string) : string :=
  match s with
  | String c s' => String (lower c) (toLowerCase s')
  | EmptyString => EmptyString
  end.

(** [s.includes(t)] *)
Fixpoint includes (s t : string) : bool :=
  String.prefix t s
  || match s with
     | String _ s' => includes s' t
     | EmptyString => false
     end.

(** The query string: every parameter is a string or is missing. *)
Module Query.
Record t : Type := {
  cuisine : option string;
  date : option string;
  time : option string;
  budget : option string;
  location : option string;
  rating : option string;
  numGuests : option string;
}.
End Query.

(** The callbacks of the six [filter] calls, in the order of the handler. *)

Definition byCuisine (cuisine' : string) (restaurant : Restaurant) : bool :=
  includes (toLowerCase (cuisine restaurant)) (toLowerCase cuisine').

Definition byAvailability (date time : string) (restaurant : Restaurant) : bool :=
  isRestaurantOpen restaurant date time.

Definition byBudget (budget : string) (restaurant : Restaurant) : bool :=
  isOnBudget restaurant budget.

Definition renderAddress (a : Address) : string :=
  match a with
  | AddressText text => text
  | AddressObject street number city =>
      street ++ " " ++ default "undefined" number ++ ", " ++ city
  end.

Definition byLocation (location : string) (restaurant : Restaurant) : bool :=
  includes (toLowerCase (renderAddress (address restaurant)))
           (toLowerCase location).

(** [restaurant.rating && restaurant.rating >= minRating] *)
Definition byRating (minRating : JS.number) (restaurant : Restaurant) : bool :=
  JS.truthy_num (rating restaurant)
  && match rating restaurant with
     | Some q => JS.ge_number q minRating
     | None => false
     end.

Definition byCapacity (requestedGuests : Z) (restaurant : Restaurant) : bool :=
  let maxGuests := JS.or_int (maxGuests restaurant) 50 in
  let currGuests := JS.or_int (currGuests restaurant) 0 in
  let availableCapacity := maxGuests - currGuests in
  requestedGuests <=? availableCapacity.

(** The string held by a parameter that was found truthy. *)
Definition str (o : option string) : string := default "" o.

(** [filteredData] at the end of the handler, or the 400 of a rejected
    date. *)
Definition filteredData (now : Z) (restaurantsData : list Restaurant)
    (query : Query.t) : ApiError + list Restaurant :=
  let '(Query.Build_t cuisine date time budget location rating numGuests) :=
    query in
  let filteredData := restaurantsData in
  let filteredData :=
    if JS.truthy_str cuisine
    then List.filter (byCuisine (str cuisine)) filteredData
    else filteredData in
  let availability :=
    if JS.truthy_str date && JS.truthy_str time then
      match validateDate now (str date) with
      | Invalid error => inl (DateRejected error)
      | Valid =>
          inr (List.filter (byAvailability (str date) (str time)) filteredData)
      end
    else inr filteredData in
  match availability with
  | inl e => inl e
  | inr filteredData =>
      let filteredData :=
        if JS.truthy_str budget
        then List.filter (byBudget (str budget)) filteredData
        else filteredData in
      let filteredData :=
        if JS.truthy_str location
        then List.filter (byLocation (str location)) filteredData
        else filteredData in
      let filteredData :=
        if JS.truthy_str rating then
          let minRating := JS.parseFloat (str rating) in
          if negb (JS.isNaN minRating)
          then List.filter (byRating minRating) filteredData
          else filteredData
        else filteredData in
      let filteredData :=
        if JS.truthy_str numGuests then
          match JS.parseInt_string (str numGuests) with
          | Some requestedGuests =>
              if 0 <? requestedGuests
              then List.filter (byCapacity requestedGuests) filteredData
              else filteredData
          | None => filteredData
          end
        else filteredData in
      inr filteredData
  end.

(** The handler: [data] of the 200 response, or the error sent. *)
Definition get_api_restaurants (now : Z) (restaurantsData : list Restaurant)
    (query : Query.t) : ApiError + list Frontend.Restaurant :=
  match filteredData now restaurantsData query with
  | inl e => inl e
  | inr l => inr (map transformRestaurantToFrontendFormat l)
  end.

(** ** POST /api/reservations *)

Module Body.
Record t : Type := {
  restaurantId : JS.value;
  date : option string;
  time : option string;
  numGuests : JS.value;
}.
End Body.

(** [data] of the 201 response. *)
Module Created.
Record t : Type := {
  restaurantId : Z;
  date : string;
  time : string;
  numGuests : Z;
  restaurant : Frontend.Restaurant;
}.
End Created.

(** [restaurantsData.findIndex(r => r.id === restaurantIdNum)] together with
    the element found; [None] is the index [-1]. *)
Definition findIndex (restaurantIdNum : Z) (restaurantsData : list Restaurant)
  : option (nat * Restaurant) :=
  list_find (λ r, id r = restaurantIdNum) restaurantsData.

(** The handler: the response and [restaurantsData] after the request. *)
Definition post_api_reservations (now : Z) (restaurantsData : list Restaurant)
    (body : Body.t) : (ApiError + Created.t) * list Restaurant :=
  let '(Body.Build_t restaurantId date time numGuests) := body in
  if negb (JS.truthy restaurantId) || negb (JS.truthy_str date)
     || negb (JS.truthy_str time) || negb (JS.truthy numGuests)
  then (inl MissingRequiredFields, restaurantsData)
  else
    match validateDate now (str date) with
    | Invalid error => (inl (DateRejected error), restaurantsData)
    | Valid =>
        match JS.parseInt numGuests with
        | None => (inl NumGuestsNotPositive, restaurantsData)
        | Some guests =>
            if guests <=? 0 then (inl NumGuestsNotPositive, restaurantsData)
            else
              match JS.parseInt restaurantId with
              | None => (inl InvalidRestaurantIdFormat, restaurantsData)
              | Some restaurantIdNum =>
                  match findIndex restaurantIdNum restaurantsData with
                  | None =>
                      (inl (RestaurantNotFound restaurantId), restaurantsData)
                  | Some (restaurantIndex, restaurant) =>
                      if negb (isRestaurantOpen restaurant (str date) (str time))
                      then (inl RestaurantNotOpen, restaurantsData)
                      else
                        let maxGuests' := JS.or_int (maxGuests restaurant) 50 in
                        let currGuests' := JS.or_int (currGuests restaurant) 0 in
                        let availableCapacity := maxGuests' - currGuests' in
                        if availableCapacity <? guests
                        then (inl (NotEnoughCapacity availableCapacity guests),
                              restaurantsData)
                        else
                          let updated :=
                            set_currGuests
                              (JS.or_int (currGuests restaurant) 0 + guests)
                              restaurant in
                          let restaurantsData :=
                            <[restaurantIndex := updated]> restaurantsData in
                          (inr {| Created.restaurantId := restaurantIdNum;
                                  Created.date := str date;
                                  Created.time := str time;
                                  Created.numGuests := guests;
                                  Created.restaurant :=
                                    transformRestaurantToFrontendFormat updated |},
                           restaurantsData)
                  end
              end
        end
    end.

(** * Vocabulary of the properties, and sample data *)

(** ** Seed data

    The first records of [restaurantsData], and a venue whose hours cross
    midnight. *)

Definition weekly (l : list (string * DayHours)) : option (gmap string DayHours) :=
  Some (list_to_map l).

Definition hours (o c : string) : DayHours :=
  {| closed := false; open := o; close := c |}.

Definition closedDay : DayHours :=
  {| closed := true; open := ""; close := "" |}.

Definition chefYam : Restaurant :=
  {| id := 1; name := "Chef Yam"; cuisine := "Seafood";
     address := AddressText "HaNamal St 12, Tel Aviv";
     rating := Some (Qmake 48 10); price_range := Some "$$$"; priceRange := None;
     maxGuests := Some 60; currGuests := Some 0;
     openingHours := weekly
       [("Monday", hours "12:00" "23:00"); ("Tuesday", hours "12:00" "23:00");
        ("Wednesday", hours "12:00" "23:00"); ("Thursday", hours "12:00" "23:00");
        ("Friday", hours "12:00" "23:00"); ("Saturday", closedDay);
        ("Sunday", closedDay)] |}.

Definition mamaRoma : Restaurant :=
  {| id := 2; name := "Mama Roma"; cuisine := "Italian";
     address := AddressText "Ben Yehuda 45, Jerusalem";
     rating := Some (Qmake 45 10); price_range := Some "$$"; priceRange := None;
     maxGuests := Some 80; currGuests := Some 0;
     openingHours := weekly
       [("Sunday", hours "18:00" "00:00"); ("Monday", hours "18:00" "00:00");
        ("Tuesday", hours "18:00" "00:00"); ("Wednesday", hours "18:00" "00:00");
        ("Thursday", hours "18:00" "00:00"); ("Friday", hours "18:00" "00:00");
        ("Saturday", hours "18:00" "00:00")] |}.

Definition shakshukaHouse : Restaurant :=
  {| id := 3; name := "Shakshuka House"; cuisine := "Middle Eastern";
     address := AddressText "Rothschild Blvd 23, Tel Aviv";
     rating := Some (Qmake 46 10); price_range := Some "$"; priceRange := None;
     maxGuests := Some 100; currGuests := Some 0;
     openingHours := weekly
       [("Sunday", hours "08:00" "22:00"); ("Monday", hours "08:00" "22:00");
        ("Tuesday", hours "08:00" "22:00"); ("Wednesday", hours "08:00" "22:00");
        ("Thursday", hours "08:00" "22:00"); ("Friday", hours "08:00" "22:00");
        ("Saturday", hours "08:00" "22:00")] |}.

Definition seed : list Restaurant := [chefYam; mamaRoma; shakshukaHouse].

(** Open from 22:00 to 02:00 on Mondays, closed otherwise. *)
Definition nightBar : Restaurant :=
  {| id := 90; name := "Night Bar"; cuisine := "Bar";
     address := AddressObject "Allenby" None "Tel Aviv";
     rating := None; price_range := None; priceRange := Some "$$";
     maxGuests := None; currGuests := None;
     openingHours := weekly [("Monday", hours "22:00" "02:00")] |}.

(** Monday 15 January 2024, and noon of the Wednesday before it. *)
Definition monday : string := "2024-01-15".
Definition wednesdayNoon : Z := 1704888000000.

(** ** Order on strings *)

(** The lexicographic order by character code. *)
Inductive lex_lt : string -> string -> Prop :=
  | lex_lt_empty c t : lex_lt EmptyString (String c t)
  | lex_lt_head c d s t :
      (N_of_ascii c < N_of_ascii d)%N -> lex_lt (String c s) (String d t)
  | lex_lt_tail c s t : lex_lt s t -> lex_lt (String c s) (String c t).

(** [a <= b]: [b] is not before [a]. *)
Definition lex_le (a b : string) : Prop := ~ lex_lt b a.

(** ** The schedule matcher *)

(** The entry of [openingHours] for the weekday of [date]. *)
Definition hoursToday (restaurant : Restaurant) (date : string) : option DayHours :=
  match openingHours restaurant with
  | Some hours => hours !! property_key (getDayOfWeek date)
  | None => None
  end.

(** The comparisons of [isRestaurantOpen] on an entry that is not closed. *)
Definition withinHours (h : DayHours) (time : string) : bool :=
  if JS.lt (close h) (open h)
  then JS.ge time (open h) || JS.lt time (close h)
  else JS.ge time (open h) && JS.lt time (close h).

(** ** The budget predicate *)

(** The price tier under its canonical spelling, as the frontend gets it. *)
Definition priceTier (restaurant : Restaurant) : option string :=
  Frontend.priceRange (transformRestaurantToFrontendFormat restaurant).

(** ** Search *)

Module Criteria.

(** The error of a rejected date, when the search checks the date at all. *)
Definition dateError (now : Z) (query : Query.t) : option string :=
  if JS.truthy_str (Query.date query) && JS.truthy_str (Query.time query) then
    match validateDate now (str (Query.date query)) with
    | Invalid error => Some error
    | Valid => None
    end
  else None.

(** The minimum rating of the query, when there is one that is a number. *)
Definition minRating (query : Query.t) : option JS.number :=
  if JS.truthy_str (Query.rating query) then
    let m := JS.parseFloat (str (Query.rating query)) in
    if JS.isNaN m then None else Some m
  else None.

(** The guest count of the query, when there is one that is a positive
    integer. *)
Definition requestedGuests (query : Query.t) : option Z :=
  if JS.truthy_str (Query.numGuests query) then
    match JS.parseInt_string (str (Query.numGuests query)) with
    | Some n => if 0 <? n then Some n else None
    | None => None
    end
  else None.

(** The conjunction of the predicates of the criteria that are present. *)
Definition satisfies (query : Query.t) (restaurant : Restaurant) : bool :=
  (if JS.truthy_str (Query.cuisine query)
   then byCuisine (str (Query.cuisine query)) restaurant else true)
  && (if JS.truthy_str (Query.date query) && JS.truthy_str (Query.time query)
      then byAvailability (str (Query.date query)) (str (Query.time query))
             restaurant
      else true)
  && (if JS.truthy_str (Query.budget query)
      then byBudget (str (Query.budget query)) restaurant else true)
  && (if JS.truthy_str (Query.location query)
      then byLocation (str (Query.location query)) restaurant else true)
  && match minRating query with
     | Some m => byRating m restaurant
     | None => true
     end
  && match requestedGuests query with
     | Some n => byCapacity n restaurant
     | None => true
     end.


Definition withoutDateTime (q : Query.t) : Query.t :=
  {| Query.cuisine := Query.cuisine q; Query.date := None; Query.time := None;
     Query.budget := Query.budget q; Query.location := Query.location q;
     Query.rating := Query.rating q; Query.numGuests := Query.numGuests q |}.

Definition withoutRating (q : Query.t) : Query.t :=
  {| Query.cuisine := Query.cuisine q; Query.date := Query.date q;
     Query.time := Query.time q; Query.budget := Query.budget q;
     Query.location := Query.location q; Query.rating := None;
     Query.numGuests := Query.numGuests q |}.

Definition withoutNumGuests (q : Query.t) : Query.t :=
  {| Query.cuisine := Query.cuisine q; Query.date := Query.date q;
     Query.time := Query.time q; Query.budget := Query.budget q;
     Query.location := Query.location q; Query.rating := Query.rating q;
     Query.numGuests := None |}.

End Criteria.

Definition italianQuery : Query.t :=
  {| Query.cuisine := Some "ITAL"; Query.date := None; Query.time := None;
     Query.budget := Some "$$"; Query.location := None; Query.rating := None;
     Query.numGuests := None |}.

Definition dateOnlyQuery : Query.t :=
  {| Query.cuisine := Some "seafood"; Query.date := Some "not a date";
     Query.time := None; Query.budget := None; Query.location := None;
     Query.rating := None; Query.numGuests := None |}.

Definition sloppyQuery : Query.t :=
  {| Query.cuisine := None; Query.date := None; Query.time := None;
     Query.budget := None; Query.location := None; Query.rating := Some "good";
     Query.numGuests := Some "-3" |}.

Definition badDateQuery : Query.t :=
  {| Query.cuisine := None; Query.date := Some "2024-13-01";
     Query.time := Some "13:00"; Query.budget := None; Query.location := None;
     Query.rating := None; Query.numGuests := None |}.

(** A venue whose rating is zero, as an update with [rating: 0] stores it. *)
Definition unrated : Restaurant :=
  {| id := 7; name := "Corner Cafe"; cuisine := "Cafe";
     address := AddressText "Herzl 1, Haifa";
     rating := Some 0%Q; price_range := Some "$"; priceRange := None;
     maxGuests := None; currGuests := None; openingHours := None |}.

Definition ratingQuery (rating : string) : Query.t :=
  {| Query.cuisine := None; Query.date := None; Query.time := None;
     Query.budget := None; Query.location := None; Query.rating := Some rating;
     Query.numGuests := None |}.

Definition dateQuery (date time : string) : Query.t :=
  {| Query.cuisine := None; Query.date := Some date; Query.time := Some time;
     Query.budget := None; Query.location := None; Query.rating := None;
     Query.numGuests := None |}.

(** ** The predicates of the search, as the specification words them *)



Module Spec.









(** [currGuests], 0 if absent. *)
Definition guests (r : Restaurant) : Z := default 0 (currGuests r).





End Spec.




(** ** Reservations *)

Module Checks.

(** A check: whether it passes, and the error sent when it does not. *)
Definition check : Type := bool * ApiError.

(** The error of the first check that does not pass. *)
Fixpoint firstFailure (checks : list check) : option ApiError :=
  match checks with
  | [] => None
  | (passes, e) :: rest => if passes then firstFailure rest else Some e
  end.

Section Request.
Variables (now : Z) (restaurantsData : list Restaurant) (body : Body.t).

Definition date : string := str (Body.date body).
Definition time : string := str (Body.time body).

(** The guest count and the id once parsed, and the record found; each is
    looked at only after the check that establishes it. *)
Definition guests : Z := default 0 (JS.parseInt (Body.numGuests body)).
Definition restaurantIdNum : Z :=
  default 0 (JS.parseInt (Body.restaurantId body)).
Definition found : option (nat * Restaurant) :=
  findIndex restaurantIdNum restaurantsData.

Definition availableCapacity (restaurant : Restaurant) : Z :=
  JS.or_int (maxGuests restaurant) 50 - JS.or_int (currGuests restaurant) 0.

Definition fieldsPresent : check :=
  (JS.truthy (Body.restaurantId body) && JS.truthy_str (Body.date body)
   && JS.truthy_str (Body.time body) && JS.truthy (Body.numGuests body),
   MissingRequiredFields).

Definition dateAccepted : check :=
  match validateDate now date with
  | Valid => (true, DateRejected "")
  | Invalid error => (false, DateRejected error)
  end.

Definition guestsPositive : check :=
  (match JS.parseInt (Body.numGuests body) with
   | Some n => 0 <? n
   | None => false
   end, NumGuestsNotPositive).

Definition idNumeric : check :=
  (match JS.parseInt (Body.restaurantId body) with
   | Some _ => true
   | None => false
   end, InvalidRestaurantIdFormat).

Definition restaurantExists : check :=
  (match found with Some _ => true | None => false end,
   RestaurantNotFound (Body.restaurantId body)).

Definition restaurantOpen : check :=
  (match found with
   | Some (_, restaurant) => isRestaurantOpen restaurant date time
   | None => false
   end, RestaurantNotOpen).

Definition capacitySuffices : check :=
  match found with
  | Some (_, restaurant) =>
      (guests <=? availableCapacity restaurant,
       NotEnoughCapacity (availableCapacity restaurant) guests)
  | None => (false, NotEnoughCapacity 0 guests)
  end.

(** The checks in the order in which the handler runs them. *)
Definition inHandlerOrder : list check :=
  [fieldsPresent; dateAccepted; guestsPositive; idNumeric;
   restaurantExists; restaurantOpen; capacitySuffices].

(** The order of the description of the ledger: the types of the inputs,
    the guest count among them, come before the date. *)
Definition inDescribedOrder : list check :=
  [fieldsPresent; idNumeric; guestsPositive; dateAccepted;
   restaurantExists; restaurantOpen; capacitySuffices].

(** The record after the reservation. *)
Definition reserved (restaurant : Restaurant) : Restaurant :=
  set_currGuests (JS.or_int (currGuests restaurant) 0 + guests) restaurant.
End Request.

End Checks.

(** What a request does: the first failing check is reported and the array
    is left alone, or all checks pass and the record found is replaced by
    the one with more guests. *)
Inductive outcome (now : Z) (restaurantsData : list Restaurant) (body : Body.t)
  : (ApiError + Created.t) * list Restaurant -> Prop :=
  | outcome_rejected e :
      Checks.firstFailure (Checks.inHandlerOrder now restaurantsData body)
      = Some e ->
      outcome now restaurantsData body (inl e, restaurantsData)
  | outcome_accepted restaurantIdNum guests restaurantIndex restaurant :
      Checks.firstFailure (Checks.inHandlerOrder now restaurantsData body)
      = None ->
      JS.parseInt (Body.restaurantId body) = Some restaurantIdNum ->
      JS.parseInt (Body.numGuests body) = Some guests ->
      0 < guests ->
      findIndex restaurantIdNum restaurantsData
      = Some (restaurantIndex, restaurant) ->
      guests <= Checks.availableCapacity restaurant ->
      outcome now restaurantsData body
        (inr {| Created.restaurantId := restaurantIdNum;
                Created.date := Checks.date body;
                Created.time := Checks.time body;
                Created.numGuests := guests;
                Created.restaurant :=
                  transformRestaurantToFrontendFormat
                    (set_currGuests
                       (JS.or_int (currGuests restaurant) 0 + guests)
                       restaurant) |},
         <[restaurantIndex :=
             set_currGuests (JS.or_int (currGuests restaurant) 0 + guests)
               restaurant]> restaurantsData).

Definition badDateBadGuests : Body.t :=
  {| Body.restaurantId := JS.Number 1; Body.date := Some "tomorrow";
     Body.time := Some "13:00"; Body.numGuests := JS.Str "many" |}.

(** ** The capacity invariant *)

(** The guest count and the capacity of a record as every reader of the
    array takes them: [currGuests || 0] and [maxGuests || 50]. *)
Definition withinCapacity (restaurant : Restaurant) : Prop :=
  Frontend.currGuests (transformRestaurantToFrontendFormat restaurant)
  <= Frontend.maxGuests (transformRestaurantToFrontendFormat restaurant).


Definition reservation (restaurantId guests : Z) : Body.t :=
  {| Body.restaurantId := JS.Number restaurantId; Body.date := Some monday;
     Body.time := Some "13:00"; Body.numGuests := JS.Number guests |}.


(** * The rest of the server: addresses and the restaurant resource *)

(** ** Text helpers behind [parseAddress] *)

(** White space removed at the end, then [s.trim()]. *)
Fixpoint trim_end (s : string) : string :=
  match s with
  | EmptyString => EmptyString
  | String c s' =>
      match trim_end s' with
      | EmptyString => if JS.is_space c then EmptyString else String c EmptyString
      | t => String c t
      end
  end.

Definition trim (s : string) : string := trim_end (JS.trim_start s).

(** [s.split(',')]: the pieces between the commas, at least one. *)
Fixpoint split_comma (s : string) : list string :=
  match s with
  | EmptyString => [EmptyString]
  | String c s' =>
      if JS.is_char c ","
      then EmptyString :: split_comma s'
      else match split_comma s' with
           | p :: ps => String c p :: ps
           | [] => [String c EmptyString]
           end
  end.

(** [l.join(sep)] *)
Fixpoint join (sep : string) (l : list string) : string :=
  match l with
  | [] => EmptyString
  | [x] => x
  | x :: rest => x ++ sep ++ join sep rest
  end.

(** The digits at the head of [s]. *)
Fixpoint leadingDigits (s : string) : string :=
  match s with
  | String c s' => if JS.is_digit c then String c (leadingDigits s') else EmptyString
  | EmptyString => EmptyString
  end.

(** [m ? m[1] : ''] for [m = s.match(/(\d+)/)]: the first run of digits of
    [s], empty when it has none. *)
Fixpoint firstDigits (s : string) : string :=
  match s with
  | String c s' => if JS.is_digit c then String c (leadingDigits s') else firstDigits s'
  | EmptyString => EmptyString
  end.

(** [s.replace(/\d+/g, '')] *)
Fixpoint removeDigits (s : string) : string :=
  match s with
  | String c s' => if JS.is_digit c then removeDigits s' else String c (removeDigits s')
  | EmptyString => EmptyString
  end.

(** The object [{ street, number, city }] that [parseAddress] returns. *)
Module Parsed.
Record t : Type := {
  street : string;
  number : string;
  city : string;
}.
End Parsed.

Definition parseAddress (addressString : string) : Parsed.t :=
  let parts := map trim (split_comma addressString) in
  if (2 <=? length parts)%nat then
    let city := List.last parts EmptyString in
    let streetPart := join ", " (removelast parts) in
    let number := firstDigits streetPart in
    let street := trim (removeDigits streetPart) in
    {| Parsed.street := street; Parsed.number := number; Parsed.city := city |}
  else
    let number := firstDigits addressString in
    let street := trim (removeDigits addressString) in
    {| Parsed.street := street; Parsed.number := number;
       Parsed.city := EmptyString |}.

(** The [address] of [transformRestaurantToFrontendFormat]: a string is
    parsed, an object is passed on. *)
Definition transformAddress (a : Address) : Address :=
  match a with
  | AddressText text =>
      let p := parseAddress text in
      AddressObject (Parsed.street p) (Some (Parsed.number p)) (Parsed.city p)
  | AddressObject _ _ _ => a
  end.

(** ** Request bodies of the restaurant resource *)

(** A key of a JSON body whose value has the type of the record field: the
    key is missing, or it holds [null] ([Given None]) or a value. *)
Inductive field (A : Type) : Type :=
  | Absent
  | Given (v : option A).
Arguments Absent {A}.
Arguments Given {A} v.

(** [body.key] read as a value: [undefined] and [null] are both [None]. *)
Definition read {A} (f : field A) : option A :=
  match f with
  | Absent => None
  | Given v => v
  end.

(** The key after [{ ...old, ...body }]. *)
Definition spread {A} (old : option A) (f : field A) : option A :=
  match f with
  | Absent => old
  | Given v => v
  end.

(** *** The body as a handler receives it *)

(** [body.address]: a scalar, [undefined] when the key is missing, or an
    object, of which [street] and [city] may be any scalar. *)
Inductive AddressJson : Type :=
  | AddressScalar (v : JS.value)
  | AddressJsonObject (street : JS.value) (number : option string)
      (city : JS.value).

(** A [body.rating] that is neither missing nor [null]: a number, with a
    fraction or without, a string or a boolean. *)
Inductive RatingJson : Type :=
  | RatingNumber (q : Q)
  | RatingString (s : string)
  | RatingBoolean (b : bool).

(** The body of a request with the keys that the validation and the create
    handler read.  [name], [cuisine] and the two spellings of the price tier
    are any scalar. *)
Module RequestBody.
Record t : Type := {
  name : JS.value;
  cuisine : JS.value;
  address : AddressJson;
  rating : field RatingJson;
  priceRange : JS.value;
  price_range : JS.value;
  openingHours : field (gmap string DayHours);
  maxGuests : field Z;
  currGuests : field Z;
}.
End RequestBody.

(** *** The body of an update *)

(** The update handler stores the values of the body as they come.  Its
    bodies are those whose values a record of the array can hold: a rating
    that is a number, price tiers that are strings, an address that is a
    string or an object. *)

(** [body.address]: missing or [null], a string, or an object whose [street]
    and [city] may be any scalar. *)
Inductive AddressBody : Type :=
  | AddressMissing
  | AddressString (s : string)
  | AddressFields (street : JS.value) (number : option string) (city : JS.value).

(** A key that holds a string, as a scalar. *)
Definition stringValue (f : field string) : JS.value :=
  match f with
  | Absent => JS.Undefined
  | Given None => JS.Null
  | Given (Some s) => JS.Str s
  end.

Module RestaurantBody.
Record t : Type := {
  name : JS.value;
  cuisine : JS.value;
  address : AddressBody;
  rating : field Q;
  priceRange : field string;
  price_range : field string;
  openingHours : field (gmap string DayHours);
  maxGuests : field Z;
  currGuests : field Z;
}.

(** The body as the validation reads it. *)
Definition json (body : t) : RequestBody.t :=
  {| RequestBody.name := name body;
     RequestBody.cuisine := cuisine body;
     RequestBody.address :=
       match address body with
       | AddressMissing => AddressScalar JS.Undefined
       | AddressString s => AddressScalar (JS.Str s)
       | AddressFields street number city =>
           AddressJsonObject street number city
       end;
     RequestBody.rating :=
       match rating body with
       | Absent => Absent
       | Given None => Given None
       | Given (Some q) => Given (Some (RatingNumber q))
       end;
     RequestBody.priceRange := stringValue (priceRange body);
     RequestBody.price_range := stringValue (price_range body);
     RequestBody.openingHours := openingHours body;
     RequestBody.maxGuests := maxGuests body;
     RequestBody.currGuests := currGuests body |}.
End RestaurantBody.

(** [typeof v !== 'string'] *)
Definition notString (v : JS.value) : bool :=
  match v with
  | JS.Str _ => false
  | _ => true
  end.

(** The string of a value that is one. *)
Definition stringOf (v : JS.value) : string :=
  match v with
  | JS.Str s => s
  | _ => EmptyString
  end.

(** [!v || typeof v !== 'string' || v.trim().length === 0] *)
Definition blankOrNotString (v : JS.value) : bool :=
  negb (JS.truthy v) || notString v
  || (String.length (trim (stringOf v)) =? 0)%nat.

Definition priceRanges : list string := ["$"; "$$"; "$$$"; "$$$$"].

(** [l.includes(s)] on an array of strings. *)
Definition includes_string (l : list string) (s : string) : bool :=
  existsb (String.eqb s) l.

(** [{ isValid, errors }] *)
Module Validation.
Record t : Type := {
  isValid : bool;
  errors : list string;
}.
End Validation.

(** [errors.push(e)] *)
Definition push (errors : list string) (e : string) : list string :=
  (errors ++ [e])%list.

(** [a || b] on two scalars. *)
Definition or_value (a b : JS.value) : JS.value :=
  if JS.truthy a then a else b.

(** [l.includes(v)] on an array of strings: a value of another type is none
    of its elements. *)
Definition includes_value (l : list string) (v : JS.value) : bool :=
  match v with
  | JS.Str s => includes_string l s
  | _ => false
  end.

(** [parseFloat(rating)]: a number is read back from its own digits, a
    boolean from its name. *)
Definition parseFloat_rating (rating : RatingJson) : JS.number :=
  match rating with
  | RatingNumber q => JS.Finite q
  | RatingString s => JS.parseFloat s
  | RatingBoolean _ => JS.NaN
  end.

(** [rating < 0 || rating > 5]; comparisons with [NaN] are false. *)
Definition outside0to5 (rating : JS.number) : bool :=
  match rating with
  | JS.NaN => false
  | JS.Infinity _ => true
  | JS.Finite q => negb (Qle_bool 0 q) || negb (Qle_bool q 5)
  end.

(** Truthiness of a rating of the body. *)
Definition truthy_rating (rating : RatingJson) : bool :=
  match rating with
  | RatingNumber q => negb (Qeq_bool q 0)
  | RatingString s => negb (s =? "")%string
  | RatingBoolean b => b
  end.

Definition validateRestaurant (restaurant : RequestBody.t) : Validation.t :=
  let errors := [] in
  let errors :=
    if blankOrNotString (RequestBody.name restaurant)
    then push errors "Name is required and must be a non-empty string"
    else errors in
  let errors :=
    if blankOrNotString (RequestBody.cuisine restaurant)
    then push errors "Cuisine is required and must be a non-empty string"
    else errors in
  let errors :=
    match RequestBody.address restaurant with
    | AddressScalar v =>
        if negb (JS.truthy v) then push errors "Address is required"
        else if negb (notString v)
                && (String.length (trim (stringOf v)) =? 0)%nat
        then push errors "Address must be a non-empty string"
        else errors
    | AddressJsonObject street _ city =>
        let errors :=
          if negb (JS.truthy street) || notString street
          then push errors "Address street is required"
          else errors in
        if negb (JS.truthy city) || notString city
        then push errors "Address city is required"
        else errors
    end in
  let errors :=
    match read (RequestBody.rating restaurant) with
    | Some v =>
        let rating := parseFloat_rating v in
        if JS.isNaN rating || outside0to5 rating
        then push errors "Rating must be a number between 0 and 5"
        else errors
    | None => errors
    end in
  let priceRange :=
    or_value (RequestBody.priceRange restaurant)
             (RequestBody.price_range restaurant) in
  let errors :=
    if JS.truthy priceRange && notString priceRange
    then push errors "Price range must be a string"
    else errors in
  let errors :=
    if JS.truthy priceRange && negb (includes_value priceRanges priceRange)
    then push errors "Price range must be one of: $, $$, $$$, $$$$"
    else errors in
  {| Validation.isValid := (length errors =? 0)%nat;
     Validation.errors := errors |}.

(** ** The restaurant resource *)

(** [Math.max(...l)] of a list that is not empty. *)
Definition Math_max (l : list Z) : Z :=
  match l with
  | [] => 0
  | x :: xs => fold_left Z.max xs x
  end.

Definition getNextId (restaurantsData : list Restaurant) : Z :=
  if (length restaurantsData =? 0)%nat then 1
  else Math_max (map id restaurantsData) + 1.

(** One constructor per [return res.status(4xx).json(...)] of the handlers
    of the resource, and one for the [catch] block of the create handler. *)
Inductive RestError : Type :=
  | InvalidIdFormat
  | NotFound (id : Z)
  | ValidationFailed (errors : list string)
  | CreatingFailed.

Definition restStatus (e : RestError) : Z :=
  match e with
  | NotFound _ => 404
  | CreatingFailed => 500
  | _ => 400
  end.

Definition restMessage (e : RestError) : string :=
  match e with
  | InvalidIdFormat => "Invalid restaurant ID format"
  | NotFound id =>
      "Restaurant with ID " ++ JS.ToString (JS.Number id) ++ " not found"
  | ValidationFailed _ => "Validation failed"
  | CreatingFailed => "Internal server error while creating restaurant"
  end.

(** [restaurantsData.find(r => r.id === id)] *)
Definition findById (id' : Z) (restaurantsData : list Restaurant)
  : option Restaurant :=
  List.find (fun r => id r =? id') restaurantsData.

(** GET /api/restaurants/:id *)
Definition get_api_restaurants_id (restaurantsData : list Restaurant)
    (params_id : string) : RestError + Frontend.Restaurant :=
  match JS.parseInt_string params_id with
  | None => inl InvalidIdFormat
  | Some id =>
      match findById id restaurantsData with
      | None => inl (NotFound id)
      | Some restaurant => inr (transformRestaurantToFrontendFormat restaurant)
      end
  end.

(** The record that POST builds from a validated body: its address is
    truthy, its rating reads as a finite number and its price tier, if
    truthy, is a string.  [None] when building the record throws: a number
    or a boolean has no method [trim]. *)
Definition newRestaurant (restaurantsData : list Restaurant)
    (body : RequestBody.t) : option Restaurant :=
  let address :=
    match RequestBody.address body with
    | AddressJsonObject street number city =>
        Some (AddressObject (stringOf street) number (stringOf city))
    | AddressScalar (JS.Str s) => Some (AddressText (trim s))
    | AddressScalar _ => None
    end in
  match address with
  | None => None
  | Some address =>
      Some
        {| id := getNextId restaurantsData;
           name := trim (stringOf (RequestBody.name body));
           cuisine := trim (stringOf (RequestBody.cuisine body));
           address := address;
           rating :=
             match read (RequestBody.rating body) with
             | Some v =>
                 if truthy_rating v then
                   match parseFloat_rating v with
                   | JS.Finite q => Some q
                   | _ => None
                   end
                 else None
             | None => None
             end;
           price_range :=
             let p := or_value (RequestBody.priceRange body)
                               (RequestBody.price_range body) in
             if JS.truthy p then Some (stringOf p) else None;
           priceRange := None;
           openingHours := read (RequestBody.openingHours body);
           maxGuests := None;
           currGuests := None |}
  end.

(** POST /api/restaurants *)
Definition post_api_restaurants (restaurantsData : list Restaurant)
    (body : RequestBody.t)
  : (RestError + Frontend.Restaurant) * list Restaurant :=
  let validation := validateRestaurant body in
  if negb (Validation.isValid validation)
  then (inl (ValidationFailed (Validation.errors validation)), restaurantsData)
  else
    match newRestaurant restaurantsData body with
    | None => (inl CreatingFailed, restaurantsData)
    | Some newRestaurant =>
        (inr (transformRestaurantToFrontendFormat newRestaurant),
         (restaurantsData ++ [newRestaurant])%list)
    end.

(** [{ ...restaurant, ...updateData }] for a validated body. *)
Definition updated (restaurant : Restaurant) (id' : Z) (body : RestaurantBody.t)
  : Restaurant :=
  {| id := id';
     name := stringOf (RestaurantBody.name body);
     cuisine := stringOf (RestaurantBody.cuisine body);
     address :=
       match RestaurantBody.address body with
       | AddressFields street number city =>
           AddressObject (stringOf street) number (stringOf city)
       | AddressString s => AddressText s
       | AddressMissing => address restaurant
       end;
     rating := spread (rating restaurant) (RestaurantBody.rating body);
     price_range :=
       if JS.truthy_str (read (RestaurantBody.priceRange body))
          && negb (JS.truthy_str (read (RestaurantBody.price_range body)))
       then read (RestaurantBody.priceRange body)
       else spread (price_range restaurant) (RestaurantBody.price_range body);
     priceRange := spread (priceRange restaurant) (RestaurantBody.priceRange body);
     openingHours :=
       spread (openingHours restaurant) (RestaurantBody.openingHours body);
     maxGuests := spread (maxGuests restaurant) (RestaurantBody.maxGuests body);
     currGuests := spread (currGuests restaurant) (RestaurantBody.currGuests body) |}.

(** PUT /api/restaurants/:id *)
Definition put_api_restaurants_id (restaurantsData : list Restaurant)
    (params_id : string) (body : RestaurantBody.t)
  : (RestError + Frontend.Restaurant) * list Restaurant :=
  match JS.parseInt_string params_id with
  | None => (inl InvalidIdFormat, restaurantsData)
  | Some id =>
      match findIndex id restaurantsData with
      | None => (inl (NotFound id), restaurantsData)
      | Some (restaurantIndex, restaurant) =>
          let validation := validateRestaurant (RestaurantBody.json body) in
          if negb (Validation.isValid validation)
          then (inl (ValidationFailed (Validation.errors validation)),
                restaurantsData)
          else
            let restaurantsData :=
              <[restaurantIndex := updated restaurant id body]> restaurantsData in
            (inr (transformRestaurantToFrontendFormat
                    (updated restaurant id body)),
             restaurantsData)
      end
  end.

(** DELETE /api/restaurants/:id: the message of the 200 response, or the
    error. *)
Definition delete_api_restaurants_id (restaurantsData : list Restaurant)
    (params_id : string) : (RestError + string) * list Restaurant :=
  match JS.parseInt_string params_id with
  | None => (inl InvalidIdFormat, restaurantsData)
  | Some id =>
      match findIndex id restaurantsData with
      | None => (inl (NotFound id), restaurantsData)
      | Some (restaurantIndex, _) =>
          (inr ("Restaurant with ID " ++ JS.ToString (JS.Number id)
                ++ " deleted successfully"),
           delete restaurantIndex restaurantsData)
      end
  end.

(** ** What the validation accepts *)

(** A string with something other than white space in it. *)
Definition nonBlankString (v : JS.value) : Prop :=
  exists s, v = JS.Str s /\ trim s <> EmptyString.

Definition nonEmptyString (v : JS.value) : Prop :=
  exists s, v = JS.Str s /\ s <> EmptyString.

Definition addressAccepted (a : AddressBody) : Prop :=
  match a with
  | AddressMissing => False
  | AddressString s => trim s <> EmptyString
  | AddressFields street _ city => nonEmptyString street /\ nonEmptyString city
  end.

(** An address that passes: a scalar that is truthy and is no blank string,
    or an object whose street and city are non-empty strings. *)
Definition addressPasses (a : AddressJson) : Prop :=
  match a with
  | AddressScalar v =>
      JS.truthy v = true /\ (forall s, v = JS.Str s -> trim s <> EmptyString)
  | AddressJsonObject street _ city =>
      nonEmptyString street /\ nonEmptyString city
  end.

Definition between0and5 (q : Q) : Prop := (0 <= q)%Q /\ (q <= 5)%Q.

(** No rating, or one that is, or as a string reads as, a number between 0
    and 5. *)
Definition ratingAccepted (rating : field RatingJson) : Prop :=
  match read rating with
  | Some (RatingNumber q) => between0and5 q
  | Some (RatingString s) =>
      exists q, JS.parseFloat s = JS.Finite q /\ between0and5 q
  | Some (RatingBoolean _) => False
  | None => True
  end.

(** One of the four price symbols, as a string. *)
Definition priceSymbol (v : JS.value) : Prop :=
  exists s, v = JS.Str s /\ In s priceRanges.

(** The first truthy one of the two spellings, if any, is a price symbol. *)
Definition priceRangeAccepted (priceRange price_range : JS.value) : Prop :=
  if JS.truthy priceRange then priceSymbol priceRange
  else JS.truthy price_range = true -> priceSymbol price_range.

(** The ids of the array, in order. *)
Definition ids (restaurantsData : list Restaurant) : list Z :=
  map id restaurantsData.

(** ** Sample bodies *)

(** A body whose rating is the string ["0"]. *)
Definition pizzaBody : RequestBody.t :=
  {| RequestBody.name := JS.Str "  Pizza Place ";
     RequestBody.cuisine := JS.Str "Italian";
     RequestBody.address := AddressScalar (JS.Str "Dizengoff 10, Tel Aviv");
     RequestBody.rating := Given (Some (RatingString "0"));
     RequestBody.priceRange := JS.Str "$$";
     RequestBody.price_range := JS.Undefined;
     RequestBody.openingHours := Absent;
     RequestBody.maxGuests := Given (Some 200);
     RequestBody.currGuests := Absent |}.

(** A body whose address is the number 42 and whose rating is the number
    0. *)
Definition numberedBody : RequestBody.t :=
  {| RequestBody.name := JS.Str "Route 42";
     RequestBody.cuisine := JS.Str "Diner";
     RequestBody.address := AddressScalar (JS.Number 42);
     RequestBody.rating := Given (Some (RatingNumber 0));
     RequestBody.priceRange := JS.Undefined;
     RequestBody.price_range := JS.Undefined;
     RequestBody.openingHours := Absent;
     RequestBody.maxGuests := Absent;
     RequestBody.currGuests := Absent |}.

Definition renameBody : RestaurantBody.t :=
  {| RestaurantBody.name := JS.Str "Chef Yam by the Sea";
     RestaurantBody.cuisine := JS.Str "Seafood";
     RestaurantBody.address := AddressString "HaNamal St 12, Tel Aviv";
     RestaurantBody.rating := Absent;
     RestaurantBody.priceRange := Absent;
     RestaurantBody.price_range := Absent;
     RestaurantBody.openingHours := Absent;
     RestaurantBody.maxGuests := Absent;
     RestaurantBody.currGuests := Absent |}.

Definition crowdedBody : RestaurantBody.t :=
  {| RestaurantBody.name := JS.Str "Chef Yam";
     RestaurantBody.cuisine := JS.Str "Seafood";
     RestaurantBody.address := AddressString "HaNamal St 12, Tel Aviv";
     RestaurantBody.rating := Absent;
     RestaurantBody.priceRange := Absent;
     RestaurantBody.price_range := Absent;
     RestaurantBody.openingHours := Absent;
     RestaurantBody.maxGuests := Given (Some 10);
     RestaurantBody.currGuests := Given (Some 25) |}.

(** The body [{ "rating": 4.9 }]. *)
Definition ratingOnlyBody : RestaurantBody.t :=
  {| RestaurantBody.name := JS.Undefined;
     RestaurantBody.cuisine := JS.Undefined;
     RestaurantBody.address := AddressMissing;
     RestaurantBody.rating := Given (Some (Qmake 49 10));
     RestaurantBody.priceRange := Absent;
     RestaurantBody.price_range := Absent;
     RestaurantBody.openingHours := Absent;
     RestaurantBody.maxGuests := Absent;
     RestaurantBody.currGuests := Absent |}.

(** ** What a reservation leaves alone *)

(** [Number.MAX_SAFE_INTEGER]: up to it, the sums and the differences of
    integers are exact, and a number is printed with all its digits. *)
Definition MAX_SAFE_INTEGER : Z := 2 ^ 53 - 1.

Definition isSafeInteger (n : Z) : Prop :=
  - MAX_SAFE_INTEGER <= n <= MAX_SAFE_INTEGER.

(** The capacity and the guest count of the record are safe integers. *)
Definition safeCounts (restaurant : Restaurant) : Prop :=
  isSafeInteger (Frontend.maxGuests (transformRestaurantToFrontendFormat restaurant))
  /\ isSafeInteger
       (Frontend.currGuests (transformRestaurantToFrontendFormat restaurant)).

(** The two records differ at most in [currGuests]. *)
Definition sameButGuests (r r' : Restaurant) : Prop :=
  id r' = id r /\ name r' = name r /\ cuisine r' = cuisine r
  /\ address r' = address r /\ rating r' = rating r
  /\ price_range r' = price_range r /\ priceRange r' = priceRange r
  /\ openingHours r' = openingHours r /\ maxGuests r' = maxGuests r.

(** The reservation body with another guest count. *)
Definition withGuests (body : Body.t) (numGuests : JS.value) : Body.t :=
  {| Body.restaurantId := Body.restaurantId body; Body.date := Body.date body;
     Body.time := Body.time body; Body.numGuests := numGuests |}.

(** The reservation that a client makes from a search and one of its
    results: the id string of the result, the date, the time and the guest
    count of the query. *)
Definition reservationFor (query : Query.t) (result : Frontend.Restaurant)
  : Body.t :=
  {| Body.restaurantId := JS.Str (Frontend.id result);
     Body.date := Query.date query; Body.time := Query.time query;
     Body.numGuests := JS.Str (str (Query.numGuests query)) |}.

(** A table for four on Monday at 13:00. *)
Definition mondayLunch : Query.t :=
  {| Query.cuisine := None; Query.date := Some monday;
     Query.time := Some "13:00"; Query.budget := None; Query.location := None;
     Query.rating := None; Query.numGuests := Some "4" |}.

(** A venue whose Monday entry opens and closes at the same time. *)
Definition roundTheClock : Restaurant :=
  {| id := 91; name := "Round the Clock"; cuisine := "Diner";
     address := AddressText "Ibn Gabirol 30, Tel Aviv";
     rating := None; price_range := None; priceRange := None;
     maxGuests := None; currGuests := None;
     openingHours := weekly [("Monday", hours "00:00" "00:00")] |}.

(** ** Characters of a string *)

Definition chars (s : string) : list ascii := list_ascii_of_string s.

Definition noDigit (s : string) : Prop :=
  Forall (fun c => JS.is_digit c = false) (chars s).

Definition allDigits (s : string) : Prop :=
  Forall (fun c => JS.is_digit c = true) (chars s).

Definition noComma (s : string) : Prop :=
  Forall (fun c => JS.is_char c "," = false) (chars s).

Definition notDigit (c : ascii) : bool := negb (JS.is_digit c).
Definition notComma (c : ascii) : bool := negb (JS.is_char c ",").

(** Every character of [s] passes the test [p]. *)
Definition holds (p : ascii -> bool) (s : string) : Prop :=
  Forall (fun c => p c = true) (chars s).

(** * Properties *)

(** ** The order of the comparisons *)

Lemma compare_Lt_lex a b : String.compare a b = Lt <-> lex_lt a b.
Proof.
  revert b. induction a as [|c a IH]; intros [|d b]; simpl.
  - split; [discriminate | intros H; inversion H].
  - split; [constructor | reflexivity].
  - split; [discriminate | intros H; inversion H].
  - destruct (Ascii.compare c d) eqn:E.
    + apply Ascii.compare_eq_iff in E. subst d. rewrite IH. split.
      * apply lex_lt_tail.
      * intros H. inversion H; subst; [lia | assumption].
    + split; [intros _|reflexivity].
      apply lex_lt_head. now apply N.compare_lt_iff.
    + unfold Ascii.compare in E. apply N.compare_gt_iff in E.
      split; [discriminate|]. intros H. inversion H; subst; lia.
Qed.

Lemma lt_lex a b : JS.lt a b = true <-> lex_lt a b.
Proof.
  unfold JS.lt, String.ltb. rewrite <- compare_Lt_lex.
  destruct (String.compare a b); split; intros H; try reflexivity; discriminate H.
Qed.

Lemma ge_lex a b : JS.ge a b = true <-> lex_le b a.
Proof.
  unfold JS.ge, lex_le. rewrite negb_true_iff, <- lt_lex. unfold JS.lt.
  destruct (String.ltb a b); split; intros H; try reflexivity; try discriminate H.
  - exfalso. now apply H.
  - intros H'. discriminate H'.
Qed.

(** ** Opening hours *)

Lemma isRestaurantOpen_hoursToday restaurant date time :
  isRestaurantOpen restaurant date time =
  match hoursToday restaurant date with
  | Some h => negb (closed h) && withinHours h time
  | None => false
  end.
Proof.
  unfold isRestaurantOpen, hoursToday, withinHours.
  destruct (openingHours restaurant) as [hs|]; [|reflexivity].
  destruct (hs !! property_key (getDayOfWeek date)) as [h|]; [|reflexivity].
  destruct (closed h); reflexivity.
Qed.

Lemma withinHours_same_day h time :
  lex_le (open h) (close h) ->
  withinHours h time = true <-> lex_le (open h) time /\ lex_lt time (close h).
Proof.
  intros Hle. unfold withinHours.
  destruct (JS.lt (close h) (open h)) eqn:E.
  - apply lt_lex in E. contradiction.
  - rewrite andb_true_iff, ge_lex, lt_lex. reflexivity.
Qed.

Lemma withinHours_overnight h time :
  lex_lt (close h) (open h) ->
  withinHours h time = true <-> lex_le (open h) time \/ lex_lt time (close h).
Proof.
  intros Hlt. unfold withinHours.
  apply lt_lex in Hlt. rewrite Hlt.
  rewrite orb_true_iff, ge_lex, lt_lex. reflexivity.
Qed.

(** C2.  [isRestaurantOpen] answers false when the entry of the weekday is
    missing or says [closed]; otherwise, comparing the strings
    lexicographically, a schedule with [close >= open] is open exactly when
    [open <= time < close], and a schedule with [close < open] exactly when
    [time >= open] or [time < close]: the opening time is included and the
    closing time is not. *)
Theorem isRestaurantOpen_schedule (restaurant : Restaurant) (date time : string) :
  (hoursToday restaurant date = None ->
   isRestaurantOpen restaurant date time = false)
  /\ (forall h, hoursToday restaurant date = Some h -> closed h = true ->
      isRestaurantOpen restaurant date time = false)
  /\ (forall h, hoursToday restaurant date = Some h -> closed h = false ->
      lex_le (open h) (close h) ->
      (isRestaurantOpen restaurant date time = true
       <-> lex_le (open h) time /\ lex_lt time (close h)))
  /\ (forall h, hoursToday restaurant date = Some h -> closed h = false ->
      lex_lt (close h) (open h) ->
      (isRestaurantOpen restaurant date time = true
       <-> lex_le (open h) time \/ lex_lt time (close h))).
Proof.
  rewrite isRestaurantOpen_hoursToday.
  split; [|split; [|split]].
  - intros ->. reflexivity.
  - intros h -> ->. reflexivity.
  - intros h -> -> Hle. now apply withinHours_same_day.
  - intros h -> -> Hlt. now apply withinHours_overnight.
Qed.

Ltac lex_order := first [apply lt_lex | apply ge_lex]; vm_compute; reflexivity.

Lemma isRestaurantOpen_schedule_witness :
  isRestaurantOpen nightBar monday "23:30" = true
  /\ isRestaurantOpen nightBar monday "01:00" = true
  /\ isRestaurantOpen chefYam monday "12:00" = true
  /\ isRestaurantOpen chefYam "2024-01-14" "13:00" = false
  /\ isRestaurantOpen nightBar "2024-01-16" "23:30" = false.
Proof.
  split; [|split; [|split; [|split]]].
  - destruct (isRestaurantOpen_schedule nightBar monday "23:30") as (_ & _ & _ & H).
    apply (H (hours "22:00" "02:00")); [vm_compute; reflexivity | reflexivity | lex_order |].
    left. lex_order.
  - destruct (isRestaurantOpen_schedule nightBar monday "01:00") as (_ & _ & _ & H).
    apply (H (hours "22:00" "02:00")); [vm_compute; reflexivity | reflexivity | lex_order |].
    right. lex_order.
  - destruct (isRestaurantOpen_schedule chefYam monday "12:00") as (_ & _ & H & _).
    apply (H (hours "12:00" "23:00")); [vm_compute; reflexivity | reflexivity | lex_order |].
    split; lex_order.
  - destruct (isRestaurantOpen_schedule chefYam "2024-01-14" "13:00") as (_ & H & _).
    apply (H closedDay); [vm_compute; reflexivity | reflexivity].
  - destruct (isRestaurantOpen_schedule nightBar "2024-01-16" "23:30") as (H & _).
    apply H. vm_compute. reflexivity.
Defined.

(** The boundaries of a schedule that crosses midnight, and of one that does
    not. *)
Example overnight_hours :
  map (isRestaurantOpen nightBar monday) ["23:30"; "01:00"; "02:00"; "12:00"; "22:00"]
  = [true; true; false; false; true].
Proof. vm_compute. reflexivity. Qed.

Example same_day_hours :
  map (isRestaurantOpen chefYam monday) ["12:00"; "23:00"; "11:59"; "22:59"]
  = [true; false; false; true].
Proof. vm_compute. reflexivity. Qed.

(** ** Budget *)

Lemma strict_eq_Some a b : strict_eq a b = true <-> a = Some b.
Proof.
  destruct a as [s|]; simpl.
  - rewrite String.eqb_eq. split; congruence.
  - split; discriminate.
Qed.

(** C8.  [isOnBudget] holds exactly when the budget equals the price tier of
    the restaurant, the tier being [price_range] when that spelling holds a
    non-empty value and [priceRange] otherwise. *)
Theorem isOnBudget_price_tier (restaurant : Restaurant) (budget : string) :
  (isOnBudget restaurant budget = true <-> priceTier restaurant = Some budget)
  /\ (forall p, price_range restaurant = Some p -> p <> "" ->
      priceTier restaurant = Some p
      /\ (isOnBudget restaurant budget = true <-> p = budget))
  /\ (JS.truthy_str (price_range restaurant) = false ->
      priceTier restaurant = priceRange restaurant
      /\ (isOnBudget restaurant budget = true
          <-> priceRange restaurant = Some budget)).
Proof.
  unfold isOnBudget, priceTier. simpl.
  split; [apply strict_eq_Some|split].
  - intros p Hp Hne. unfold JS.or_str. rewrite Hp. simpl.
    apply String.eqb_neq in Hne. rewrite Hne. simpl.
    split; [reflexivity|apply String.eqb_eq].
  - intros Hf. unfold JS.or_str. rewrite Hf.
    split; [reflexivity|apply strict_eq_Some].
Qed.

Lemma isOnBudget_price_tier_witness :
  isOnBudget chefYam "$$$" = true /\ isOnBudget nightBar "$$" = true.
Proof.
  split.
  - destruct (isOnBudget_price_tier chefYam "$$$") as (_ & H & _).
    apply (H "$$$"); [reflexivity | discriminate | reflexivity].
  - destruct (isOnBudget_price_tier nightBar "$$") as (_ & _ & H).
    apply H; reflexivity.
Defined.

(** ** Substrings *)

Lemma prefix_app t s : String.prefix t s = true <-> exists b, s = t ++ b.
Proof.
  revert s. induction t as [|c t IH]; intros s.
  - split; [intros _; exists s; reflexivity|]. intros _. now destruct s.
  - destruct s as [|d s]; simpl.
    + split; [discriminate|]. intros [b Hb]. discriminate.
    + destruct (Ascii.ascii_dec c d) as [->|Hne].
      * rewrite IH. split; intros [b Hb]; exists b.
        -- simpl. now rewrite Hb.
        -- simpl in Hb. now injection Hb.
      * split; [discriminate|]. intros [b Hb]. simpl in Hb.
        injection Hb as Hcd _. congruence.
Qed.

Lemma includes_substring s t :
  includes s t = true <-> exists a b, s = a ++ t ++ b.
Proof.
  induction s as [|c s IH]; cbn [includes].
  - rewrite orb_false_r, prefix_app. split.
    + intros [b Hb]. exists EmptyString, b. exact Hb.
    + intros (a & b & H). destruct a; [exists b; exact H|discriminate].
  - rewrite orb_true_iff, prefix_app, IH. split.
    + intros [[b Hb]|(a & b & H)].
      * exists EmptyString, b. exact Hb.
      * exists (String c a), b. simpl. now rewrite H.
    + intros (a & b & H). destruct a as [|c' a].
      * left. exists b. exact H.
      * right. exists a, b. simpl in H. now injection H.
Qed.

(** ** The search as one filter *)

Section Filters.
Context {A : Type}.
Implicit Types (p q : A -> bool) (l : list A).

Lemma filter_twice p q l :
  List.filter q (List.filter p l) = List.filter (fun x => p x && q x) l.
Proof.
  induction l as [|x l IH]; simpl; [reflexivity|].
  destruct (p x); simpl; [destruct (q x)|]; rewrite IH; reflexivity.
Qed.

Lemma filter_all l : List.filter (fun _ => true) l = l.
Proof. induction l as [|x l IH]; simpl; congruence. Qed.

Lemma filter_when (c : bool) p l :
  (if c then List.filter p l else l)
  = List.filter (fun x => if c then p x else true) l.
Proof. destruct c; [reflexivity|symmetry; apply filter_all]. Qed.

End Filters.

Lemma filteredData_satisfies now restaurantsData query :
  filteredData now restaurantsData query =
  match Criteria.dateError now query with
  | Some error => inl (DateRejected error)
  | None => inr (List.filter (Criteria.satisfies query) restaurantsData)
  end.
Proof.
  destruct query as [cuisine date time budget location rating numGuests].
  unfold filteredData, Criteria.dateError, Criteria.satisfies,
    Criteria.minRating, Criteria.requestedGuests.
  cbn [Query.cuisine Query.date Query.time Query.budget Query.location
       Query.rating Query.numGuests].
  destruct (JS.truthy_str date && JS.truthy_str time);
    [destruct (validateDate now (str date)); [|reflexivity]|];
    destruct (JS.truthy_str rating);
    try destruct (JS.isNaN (JS.parseFloat (str rating)));
    destruct (JS.truthy_str numGuests);
    try (destruct (JS.parseInt_string (str numGuests)) as [n|];
         [destruct (0 <? n)|]);
    cbn [negb]; f_equal;
    rewrite !filter_when, ?filter_twice; apply List.filter_ext; intros r;
    cbn beta; rewrite ?andb_true_r, ?andb_assoc; reflexivity.
Qed.

(** ** The handler's filters against the predicates of the specification *)












(** C6.  When exactly one of [date] and [time] is supplied, the pair is
    ignored: the search reports no error and returns what the same query
    without the pair returns, the other criteria filtering as usual. *)
Theorem unpaired_date_time_ignored (now : Z) (restaurantsData : list Restaurant)
    (query : Query.t) :
  JS.truthy_str (Query.date query) <> JS.truthy_str (Query.time query) ->
  filteredData now restaurantsData query
  = filteredData now restaurantsData (Criteria.withoutDateTime query)
  /\ filteredData now restaurantsData query
     = inr (List.filter (Criteria.satisfies (Criteria.withoutDateTime query))
              restaurantsData).
Proof.
  intros Hone.
  assert (JS.truthy_str (Query.date query) && JS.truthy_str (Query.time query)
          = false) as Hpair.
  { destruct (JS.truthy_str (Query.date query)),
      (JS.truthy_str (Query.time query)); try reflexivity. now elim Hone. }
  rewrite !filteredData_satisfies.
  unfold Criteria.dateError, Criteria.satisfies. rewrite Hpair.
  destruct query; split; reflexivity.
Qed.

Lemma unpaired_date_time_ignored_witness :
  filteredData wednesdayNoon seed dateOnlyQuery = inr [chefYam].
Proof.
  destruct (unpaired_date_time_ignored wednesdayNoon seed dateOnlyQuery)
    as (_ & H); [discriminate|].
  rewrite H. vm_compute. reflexivity.
Defined.

(** C10.  A [rating] that is not a number and a [numGuests] that is not a
    positive integer are skipped: the search answers as if the parameter
    were missing, so it raises no error and excludes no restaurant on its
    account.  A rejected date, by contrast, ends the search with that
    error. *)
Theorem unparsable_rating_and_guests_skipped (now : Z)
    (restaurantsData : list Restaurant) (query : Query.t) :
  (JS.isNaN (JS.parseFloat (str (Query.rating query))) = true ->
   filteredData now restaurantsData query
   = filteredData now restaurantsData (Criteria.withoutRating query))
  /\ ((forall n, JS.parseInt_string (str (Query.numGuests query)) = Some n ->
                 n <= 0) ->
      filteredData now restaurantsData query
      = filteredData now restaurantsData (Criteria.withoutNumGuests query))
  /\ (forall error,
      JS.truthy_str (Query.date query) = true ->
      JS.truthy_str (Query.time query) = true ->
      validateDate now (str (Query.date query)) = Invalid error ->
      filteredData now restaurantsData query = inl (DateRejected error)).
Proof.
  split; [|split].
  - intros Hnan. rewrite !filteredData_satisfies.
    destruct query as [cuisine date time budget location rating numGuests].
    unfold Criteria.dateError, Criteria.satisfies, Criteria.minRating.
    cbn in *. rewrite Hnan. destruct (JS.truthy_str rating); reflexivity.
  - intros Hnp. rewrite !filteredData_satisfies.
    destruct query as [cuisine date time budget location rating numGuests].
    unfold Criteria.dateError, Criteria.satisfies, Criteria.requestedGuests.
    cbn in *.
    destruct (JS.parseInt_string (default "" numGuests)) as [n|] eqn:Hp.
    + specialize (Hnp n eq_refl).
      destruct (0 <? n) eqn:E; [apply Z.ltb_lt in E; lia|].
      destruct (JS.truthy_str numGuests); reflexivity.
    + destruct (JS.truthy_str numGuests); reflexivity.
  - intros error Hd Ht Hv. rewrite filteredData_satisfies.
    unfold Criteria.dateError. rewrite Hd, Ht, Hv. reflexivity.
Qed.

Lemma unparsable_rating_and_guests_skipped_witness :
  filteredData wednesdayNoon seed sloppyQuery = inr seed
  /\ filteredData wednesdayNoon seed badDateQuery
     = inl (DateRejected "Invalid date").
Proof.
  split.
  - destruct (unparsable_rating_and_guests_skipped wednesdayNoon seed sloppyQuery)
      as (H1 & _).
    rewrite H1; [|reflexivity].
    destruct (unparsable_rating_and_guests_skipped wednesdayNoon seed
                (Criteria.withoutRating sloppyQuery)) as (_ & H2 & _).
    rewrite H2; [reflexivity|].
    intros n Hn. vm_compute in Hn. injection Hn as <-. lia.
  - destruct (unparsable_rating_and_guests_skipped wednesdayNoon seed badDateQuery)
      as (_ & _ & H3).
    apply H3; reflexivity.
Defined.

(** ** The rating filter *)

Lemma byRating_finite (m : Q) (restaurant : Restaurant) :
  byRating (JS.Finite m) restaurant = true
  <-> exists q, rating restaurant = Some q /\ ~ (q == 0)%Q /\ (m <= q)%Q.
Proof.
  unfold byRating. destruct (rating restaurant) as [q|]; simpl.
  - rewrite andb_true_iff, negb_true_iff, Qle_bool_iff. split.
    + intros [Hz Hle]. exists q. repeat split; [|exact Hle].
      intros Heq. apply Qeq_bool_iff in Heq. congruence.
    + intros (q' & [= <-] & Hz & Hle). split; [|exact Hle].
      destruct (Qeq_bool q 0) eqn:E; [|reflexivity].
      apply Qeq_bool_iff in E. contradiction.
  - split; [discriminate|]. intros (q & Hq & _). discriminate.
Qed.

(** C7, where the code departs from it.  A restaurant rated 0 has a rating,
    and 0 >= 0, yet a search for a minimum rating of 0 leaves it out: the
    filter takes the rating 0 for a missing one. *)
Theorem rating_filter_drops_zero_rating :
  rating unrated = Some 0%Q
  /\ JS.parseFloat "0" = JS.Finite 0%Q
  /\ (0 <= 0)%Q
  /\ byRating (JS.Finite 0%Q) unrated = false
  /\ filteredData wednesdayNoon [chefYam; unrated] (ratingQuery "0")
     = inr [chefYam].
Proof.
  repeat split; try reflexivity. apply Qle_refl.
Qed.

(** ** Date validation *)

Lemma Date_getTime_midnight s t :
  JS.Date_getTime s = Some t ->
  JS.dateRegex_test s = true /\ JS.setUTCHours0 t = t.
Proof.
  unfold JS.Date_getTime. destruct (JS.dateRegex_test s); [|discriminate].
  destruct (_ && _); [|discriminate]. intros [= <-]. split; [reflexivity|].
  unfold JS.setUTCHours0. rewrite Z.div_mul; [reflexivity|discriminate].
Qed.

Lemma validateDate_format now s :
  JS.dateRegex_test s = false ->
  validateDate now s = Invalid "Date must be in YYYY-MM-DD format".
Proof. intros H. unfold validateDate. rewrite H. reflexivity. Qed.

Lemma validateDate_unparsed now s :
  JS.dateRegex_test s = true -> JS.Date_getTime s = None ->
  validateDate now s = Invalid "Invalid date".
Proof. intros H1 H2. unfold validateDate. rewrite H1, H2. reflexivity. Qed.

Lemma validateDate_past now s t :
  JS.Date_getTime s = Some t -> t < JS.setUTCHours0 now ->
  validateDate now s = Invalid "Date cannot be in the past".
Proof.
  intros Ht Hlt. destruct (Date_getTime_midnight s t Ht) as [Hre Hmid].
  unfold validateDate. rewrite Hre, Ht, Hmid. simpl.
  apply Z.ltb_lt in Hlt. rewrite Hlt. reflexivity.
Qed.

Lemma validateDate_today_or_later now s t :
  JS.Date_getTime s = Some t -> JS.setUTCHours0 now <= t ->
  validateDate now s = Valid.
Proof.
  intros Ht Hle. destruct (Date_getTime_midnight s t Ht) as [Hre Hmid].
  unfold validateDate. rewrite Hre, Ht, Hmid. simpl.
  apply Z.ltb_ge in Hle. rewrite Hle. reflexivity.
Qed.

Lemma search_aborts_on_rejected_date now restaurantsData query error :
  JS.truthy_str (Query.date query) = true ->
  JS.truthy_str (Query.time query) = true ->
  validateDate now (str (Query.date query)) = Invalid error ->
  get_api_restaurants now restaurantsData query = inl (DateRejected error)
  /\ kind (DateRejected error) = ValidationError.
Proof.
  intros Hd Ht Hv. unfold get_api_restaurants.
  rewrite filteredData_satisfies. unfold Criteria.dateError.
  rewrite Hd, Ht, Hv. split; reflexivity.
Qed.

(** C4, where the code departs from it.  30 February 2024 is not a calendar
    date, yet [validateDate] accepts it: the engine reads it as 1 March, a
    Friday, and the search filters by that day instead of reporting an
    error.  A month of 13 is rejected, as is a date before today, and the
    day of today passes. *)
Theorem validateDate_accepts_30_February :
  validateDate wednesdayNoon "2024-02-30" = Valid
  /\ JS.Date_getTime "2024-02-30" = JS.Date_getTime "2024-03-01"
  /\ getDayOfWeek "2024-02-30" = Some "Friday"
  /\ filteredData wednesdayNoon seed (dateQuery "2024-02-30" "13:00")
     = inr [chefYam; shakshukaHouse]
  /\ validateDate wednesdayNoon "2024-13-01" = Invalid "Invalid date"
  /\ validateDate wednesdayNoon "2024-01-09" = Invalid "Date cannot be in the past"
  /\ validateDate wednesdayNoon "2024-01-10" = Valid.
Proof.
  repeat split; vm_compute; reflexivity.
Qed.

(** ** The reservation handler, check by check *)

Ltac unfold_checks :=
  unfold Checks.inHandlerOrder, Checks.fieldsPresent, Checks.dateAccepted,
    Checks.guestsPositive, Checks.idNumeric, Checks.restaurantExists,
    Checks.restaurantOpen, Checks.capacitySuffices, Checks.found,
    Checks.restaurantIdNum, Checks.guests, Checks.date, Checks.time;
  cbn [Body.restaurantId Body.date Body.time Body.numGuests].

Ltac run_checks :=
  repeat (progress
    (repeat match goal with
            | H : ?x = _ |- context [?x] => rewrite H
            end;
     cbn [andb negb orb default from_option Datatypes.id Checks.firstFailure])).

Lemma post_api_reservations_outcome now restaurantsData body :
  outcome now restaurantsData body
    (post_api_reservations now restaurantsData body).
Proof.
  destruct body as [restaurantId date time numGuests].
  unfold post_api_reservations.
  destruct (JS.truthy restaurantId) eqn:Hid; cbn [negb orb];
    [|apply outcome_rejected; unfold_checks; run_checks; reflexivity].
  destruct (JS.truthy_str date) eqn:Hd; cbn [negb orb];
    [|apply outcome_rejected; unfold_checks; run_checks; reflexivity].
  destruct (JS.truthy_str time) eqn:Ht; cbn [negb orb];
    [|apply outcome_rejected; unfold_checks; run_checks; reflexivity].
  destruct (JS.truthy numGuests) eqn:Hg; cbn [negb orb];
    [|apply outcome_rejected; unfold_checks; run_checks; reflexivity].
  destruct (validateDate now (str date)) as [|error] eqn:Hv;
    [|apply outcome_rejected; unfold_checks; run_checks; reflexivity].
  destruct (JS.parseInt numGuests) as [guests|] eqn:Hpg;
    [|apply outcome_rejected; unfold_checks; run_checks; reflexivity].
  destruct (guests <=? 0) eqn:Hle.
  { assert ((0 <? guests) = false) as Hpos by lia.
    apply outcome_rejected; unfold_checks; run_checks; reflexivity. }
  assert ((0 <? guests) = true) as Hpos by lia.
  destruct (JS.parseInt restaurantId) as [restaurantIdNum|] eqn:Hpi;
    [|apply outcome_rejected; unfold_checks; run_checks; reflexivity].
  destruct (findIndex restaurantIdNum restaurantsData)
    as [[restaurantIndex restaurant]|] eqn:Hf;
    [|apply outcome_rejected; unfold_checks; run_checks; reflexivity].
  destruct (isRestaurantOpen restaurant (str date) (str time)) eqn:Ho;
    cbn [negb];
    [|apply outcome_rejected; unfold_checks; run_checks; reflexivity].
  fold (Checks.availableCapacity restaurant).
  destruct (Checks.availableCapacity restaurant <? guests) eqn:Hc.
  - assert ((guests <=? Checks.availableCapacity restaurant) = false) as Hc'
      by lia.
    apply outcome_rejected; unfold_checks; run_checks; reflexivity.
  - assert ((guests <=? Checks.availableCapacity restaurant) = true) as Hc'
      by lia.
    apply (outcome_accepted now restaurantsData
             (Body.Build_t restaurantId date time numGuests)
             restaurantIdNum guests restaurantIndex restaurant);
      try assumption; try lia.
    unfold_checks; run_checks; reflexivity.
Qed.

Lemma or_int_zero n : JS.or_int (Some n) 0 = n.
Proof. unfold JS.or_int. destruct (n =? 0) eqn:E; lia. Qed.


(** C3, as the handler has it.  The checks run in this order, the first
    failure ending the request: the four fields are present; the date is
    well formed and not in the past; [numGuests] reads as a positive
    integer; [restaurantId] reads as an integer; a restaurant with that id
    exists; it is open at that date and time; its remaining capacity covers
    the guests.  On a failure the array is untouched.  On success the stored
    record, and no other, has its [currGuests] raised by the guest count,
    and the response carries that updated record. *)
Theorem reservation_checks_in_order (now : Z) (restaurantsData : list Restaurant)
    (body : Body.t) :
  match Checks.firstFailure (Checks.inHandlerOrder now restaurantsData body) with
  | Some e =>
      post_api_reservations now restaurantsData body = (inl e, restaurantsData)
  | None =>
      exists restaurantIndex restaurant created,
        findIndex (Checks.restaurantIdNum body) restaurantsData
        = Some (restaurantIndex, restaurant)
        /\ restaurantsData !! restaurantIndex = Some restaurant
        /\ post_api_reservations now restaurantsData body
           = (inr created,
              <[restaurantIndex := Checks.reserved body restaurant]>
                restaurantsData)
        /\ currGuests (Checks.reserved body restaurant)
           = Some (JS.or_int (currGuests restaurant) 0 + Checks.guests body)
        /\ Created.numGuests created = Checks.guests body
        /\ Created.restaurant created
           = transformRestaurantToFrontendFormat
               (Checks.reserved body restaurant)
        /\ Frontend.currGuests (Created.restaurant created)
           = Frontend.currGuests (transformRestaurantToFrontendFormat restaurant)
             + Checks.guests body
  end.
Proof.
  pose proof (post_api_reservations_outcome now restaurantsData body) as Ho.
  inversion Ho as [e He Heq | n g i r Hnone Hpi Hpg Hpos Hf Hcap Heq].
  - rewrite He. reflexivity.
  - rewrite Hnone. eexists i, r, _.
    assert (Checks.restaurantIdNum body = n) as Hn
      by (unfold Checks.restaurantIdNum; rewrite Hpi; reflexivity).
    assert (Checks.guests body = g) as Hg
      by (unfold Checks.guests; rewrite Hpg; reflexivity).
    unfold Checks.reserved. rewrite Hn, Hg.
    split; [exact Hf|]. split.
    { apply list_find_Some in Hf. apply Hf. }
    split; [reflexivity|]. cbn.
    repeat split. apply or_int_zero.
Qed.

(** Against C3 as described: a request whose date and guest count are both
    wrong is answered about its date; checking the guest count first would
    answer about the guests. *)
Lemma described_order_differs :
  post_api_reservations wednesdayNoon seed badDateBadGuests
  = (inl (DateRejected "Date must be in YYYY-MM-DD format"), seed)
  /\ Checks.firstFailure (Checks.inDescribedOrder wednesdayNoon seed badDateBadGuests)
     = Some NumGuestsNotPositive
  /\ Checks.firstFailure (Checks.inHandlerOrder wednesdayNoon seed badDateBadGuests)
     <> Checks.firstFailure
          (Checks.inDescribedOrder wednesdayNoon seed badDateBadGuests)
  /\ message (DateRejected "Date must be in YYYY-MM-DD format")
     <> message NumGuestsNotPositive.
Proof.
  split; [reflexivity|]. split; [reflexivity|]. split; discriminate.
Qed.

(** C9.  A request whose [numGuests] is the number 0 is answered with the
    missing-fields error, whatever its other fields: it stops at the first
    check, before the check that asks for a positive number, and the array
    is unchanged. *)
Theorem zero_guests_reported_missing (now : Z) (restaurantsData : list Restaurant)
    (restaurantId : JS.value) (date time : option string) :
  post_api_reservations now restaurantsData
    {| Body.restaurantId := restaurantId; Body.date := date;
       Body.time := time; Body.numGuests := JS.Number 0 |}
  = (inl MissingRequiredFields, restaurantsData)
  /\ Checks.firstFailure
       (Checks.inHandlerOrder now restaurantsData
          {| Body.restaurantId := restaurantId; Body.date := date;
             Body.time := time; Body.numGuests := JS.Number 0 |})
     = Some MissingRequiredFields
  /\ MissingRequiredFields <> NumGuestsNotPositive.
Proof.
  split; [|split; [|discriminate]].
  - unfold post_api_reservations. cbn. rewrite orb_true_r. reflexivity.
  - cbn. rewrite andb_false_r. reflexivity.
Qed.

(** ** Capacity *)







(** * Properties of the rest of the server *)

(** ** Numbers printed and read back *)

Ltac eval_digit :=
  match goal with
  | |- context [JS.radix_digit 10 ?c] =>
      let v := eval vm_compute in (JS.radix_digit 10 c) in
      change (JS.radix_digit 10 c) with v
  end.

Lemma digits_prefix_acc (d : Decimal.uint) (acc : positive) :
  JS.digits_prefix 10 (Some (Zpos acc)) (NilEmpty.string_of_uint d)
  = Some (Zpos (Pos.of_uint_acc d acc)).
Proof.
  revert acc. induction d; intros acc;
    cbn [NilEmpty.string_of_uint JS.digits_prefix Pos.of_uint_acc];
    [reflexivity|..];
    eval_digit; cbn [default from_option Datatypes.id];
    rewrite <- IHd; f_equal; f_equal; lia.
Qed.

Lemma digits_prefix_zero (d : Decimal.uint) :
  JS.digits_prefix 10 (Some 0) (NilEmpty.string_of_uint d)
  = Some (Z.of_N (Pos.of_uint d)).
Proof.
  induction d;
    cbn [NilEmpty.string_of_uint JS.digits_prefix Pos.of_uint];
    [reflexivity|..];
    eval_digit; cbn [default from_option Datatypes.id];
    [exact IHd|..];
    match goal with
    | |- JS.digits_prefix 10 (Some ?k) _ = _ =>
        let p := eval vm_compute in (Z.to_pos k) in
        change k with (Zpos p)
    end; rewrite digits_prefix_acc; reflexivity.
Qed.

(** A printed natural number starts with a digit and has no letter, so
    [parseInt] reads it in base ten from its first character. *)
Lemma parseInt_string_uint (d : Decimal.uint) :
  d <> Decimal.Nil ->
  JS.parseInt_string (NilEmpty.string_of_uint d)
  = JS.digits_prefix 10 (Some 0) (NilEmpty.string_of_uint d)
  /\ JS.parseInt_string (String "-" (NilEmpty.string_of_uint d))
     = option_map Z.opp
         (JS.digits_prefix 10 (Some 0) (NilEmpty.string_of_uint d)).
Proof.
  intros Hd. destruct d as [|d|d|d|d|d|d|d|d|d|d]; [congruence|..];
    destruct d; cbn [NilEmpty.string_of_uint].
  all: unfold JS.parseInt_string.
  all: cbn [JS.trim_start].
  all: repeat match goal with
       | |- context [JS.is_space ?c] =>
           let v := eval vm_compute in (JS.is_space c) in
           change (JS.is_space c) with v
       end.
  all: cbv iota beta.
  all: cbn [JS.digits_prefix].
  all: repeat eval_digit.
  all: cbn [default from_option Datatypes.id].
  all: split.
  all: try reflexivity.
  all: destruct (JS.digits_prefix 10 _ _); cbn; f_equal; lia.
Qed.

(** [parseInt] of a number of a body, and of the id string sent to the
    frontend, is that number. *)
Lemma parseInt_Number (n : Z) : JS.parseInt (JS.Number n) = Some n.
Proof.
  unfold JS.parseInt, JS.ToString.
  destruct n as [|p|p]; [reflexivity|..];
    unfold Z.to_int, NilZero.string_of_int, NilZero.string_of_uint;
    pose proof (DecimalPos.Unsigned.to_uint_nonnil p) as Hnil;
    destruct (parseInt_string_uint _ Hnil) as [Hpos Hneg];
    destruct (Pos.to_uint p) eqn:E; try congruence; rewrite <- E in *.
  all: first [rewrite Hpos | rewrite Hneg].
  all: rewrite digits_prefix_zero, DecimalPos.Unsigned.of_to; reflexivity.
Qed.

(** ** The array and its ids *)

Lemma fold_max_ge (xs : list Z) (a : Z) :
  a <= fold_left Z.max xs a /\ Forall (fun y => y <= fold_left Z.max xs a) xs.
Proof.
  revert a. induction xs as [|x xs IH]; intros a; simpl.
  - split; [lia|constructor].
  - destruct (IH (Z.max a x)) as [H1 H2]. split; [lia|].
    constructor; [lia|exact H2].
Qed.

Lemma Math_max_ge (l : list Z) (x : Z) : In x l -> x <= Math_max l.
Proof.
  destruct l as [|a xs]; [intros []|]. simpl.
  destruct (fold_max_ge xs a) as [H1 H2]. intros [<-|Hin]; [exact H1|].
  rewrite Forall_forall in H2. apply H2. now apply list_elem_of_In.
Qed.

Lemma findIndex_Some n (restaurantsData : list Restaurant) i r :
  findIndex n restaurantsData = Some (i, r)
  <-> restaurantsData !! i = Some r /\ id r = n
      /\ forall j y, restaurantsData !! j = Some y -> (j < i)%nat -> id y <> n.
Proof. unfold findIndex. rewrite list_find_Some. reflexivity. Qed.

Lemma findIndex_None n (restaurantsData : list Restaurant) :
  findIndex n restaurantsData = None
  <-> Forall (fun r => id r <> n) restaurantsData.
Proof. unfold findIndex. rewrite list_find_None. reflexivity. Qed.

Lemma findById_findIndex n (restaurantsData : list Restaurant) :
  findById n restaurantsData = snd <$> findIndex n restaurantsData.
Proof.
  unfold findById, findIndex.
  induction restaurantsData as [|x l IH]; [reflexivity|].
  cbn [List.find list_find]. destruct (Z.eqb_spec (id x) n) as [E|E].
  - rewrite decide_True by exact E. reflexivity.
  - rewrite decide_False by exact E. rewrite IH.
    destruct (list_find _ l) as [[j y]|]; reflexivity.
Qed.

Lemma getNextId_unused (restaurantsData : list Restaurant) :
  Forall (fun r => id r < getNextId restaurantsData) restaurantsData
  /\ findIndex (getNextId restaurantsData) restaurantsData = None
  /\ findById (getNextId restaurantsData) restaurantsData = None.
Proof.
  assert (Forall (fun r => id r < getNextId restaurantsData) restaurantsData)
    as Hlt.
  { apply Forall_forall. intros r Hr. unfold getNextId.
    destruct restaurantsData as [|x l]; [inversion Hr|].
    cbn [length Nat.eqb].
    apply list_elem_of_In in Hr.
    pose proof (Math_max_ge (map id (x :: l)) (id r) (in_map id _ _ Hr)). lia. }
  assert (findIndex (getNextId restaurantsData) restaurantsData = None) as Hn.
  { apply findIndex_None. eapply Forall_impl; [exact Hlt|].
    intros r Hr. simpl in Hr. lia. }
  split; [exact Hlt|]. split; [exact Hn|].
  rewrite findById_findIndex, Hn. reflexivity.
Qed.

(** X1.  [getNextId] returns an id larger than every id of the array, hence
    one that no record carries: neither [findIndex] nor [find] meets it. *)
Theorem getNextId_fresh (restaurantsData : list Restaurant) :
  Forall (fun r => id r < getNextId restaurantsData) restaurantsData
  /\ findIndex (getNextId restaurantsData) restaurantsData = None
  /\ findById (getNextId restaurantsData) restaurantsData = None.
Proof.
  destruct (getNextId_unused restaurantsData) as (Hlt & Hi & Hf).
  split; [exact Hlt|]. split; [exact Hi|exact Hf].
Qed.

(** ** Trimming *)

Lemma trim_start_length s : (String.length (JS.trim_start s) <= String.length s)%nat.
Proof.
  induction s as [|c s IH]; simpl; [lia|].
  destruct (JS.is_space c); simpl; lia.
Qed.

Lemma trim_start_fixed c s :
  JS.trim_start (String c s) = String c s -> JS.is_space c = false.
Proof.
  simpl. destruct (JS.is_space c); [|reflexivity].
  intros H. pose proof (trim_start_length s) as Hl. rewrite H in Hl.
  simpl in Hl. lia.
Qed.

Lemma trim_start_idem s : JS.trim_start (JS.trim_start s) = JS.trim_start s.
Proof.
  induction s as [|c s IH]; [reflexivity|]. simpl.
  destruct (JS.is_space c) eqn:E; [exact IH|]. simpl. rewrite E. reflexivity.
Qed.

Lemma trim_end_cons c s :
  trim_end (String c s)
  = if (String.length (trim_end s) =? 0)%nat
    then (if JS.is_space c then EmptyString else String c EmptyString)
    else String c (trim_end s).
Proof. simpl. destruct (trim_end s); reflexivity. Qed.

Lemma trim_end_idem s : trim_end (trim_end s) = trim_end s.
Proof.
  induction s as [|c s IH]; [reflexivity|].
  rewrite trim_end_cons. destruct (trim_end s) as [|d t] eqn:E; simpl.
  - destruct (JS.is_space c) eqn:Ec; simpl; [reflexivity|]. rewrite Ec.
    reflexivity.
  - simpl in IH. rewrite IH. reflexivity.
Qed.

Lemma trim_end_head c s d t :
  trim_end (String c s) = String d t -> d = c.
Proof.
  rewrite trim_end_cons. destruct (_ =? _)%nat; [|congruence].
  destruct (JS.is_space c); congruence.
Qed.

Lemma trim_start_trim_end s :
  JS.trim_start s = s -> JS.trim_start (trim_end s) = trim_end s.
Proof.
  destruct s as [|c s]; [reflexivity|]. intros H.
  apply trim_start_fixed in H.
  destruct (trim_end (String c s)) as [|d t] eqn:E; [reflexivity|].
  apply trim_end_head in E as ->. simpl. rewrite H. reflexivity.
Qed.

Lemma trim_idem s : trim (trim s) = trim s.
Proof.
  unfold trim. rewrite trim_start_trim_end by apply trim_start_idem.
  apply trim_end_idem.
Qed.

(** ** Validation *)

Lemma length_push errors e : length (push errors e) = S (length errors).
Proof. unfold push. rewrite length_app. simpl. lia. Qed.

Lemma blankOrNotString_false v :
  blankOrNotString v = false <-> nonBlankString v.
Proof.
  unfold blankOrNotString, nonBlankString. split.
  - intros H. apply orb_false_elim in H as [H Hlen].
    apply orb_false_elim in H as [_ Hs].
    destruct v as [| | |n|s]; try discriminate. exists s. split; [reflexivity|].
    simpl in Hlen. intros E. rewrite E in Hlen. discriminate.
  - intros (s & -> & Hne). simpl.
    destruct (trim s) as [|c t] eqn:E; [congruence|].
    destruct s as [|c' s']; [discriminate|]. reflexivity.
Qed.

Lemma fieldString_false v :
  negb (JS.truthy v) || notString v = false <-> nonEmptyString v.
Proof.
  unfold nonEmptyString. split.
  - intros H. apply orb_false_elim in H as [Ht Hs].
    destruct v as [| | |n|s]; try discriminate. exists s. split; [reflexivity|].
    intros ->. discriminate.
  - intros (s & -> & Hne). destruct s; [congruence|reflexivity].
Qed.

Lemma includes_string_In l s : includes_string l s = true <-> In s l.
Proof.
  unfold includes_string. rewrite existsb_exists. split.
  - intros (x & Hx & E). apply String.eqb_eq in E. now subst.
  - intros H. exists s. split; [exact H|apply String.eqb_refl].
Qed.

Lemma isValid_push errors e (b : bool) :
  (length (if b then push errors e else errors) =? 0)%nat
  = negb b && (length errors =? 0)%nat.
Proof. destruct b; [rewrite length_push|]; reflexivity. Qed.

Lemma addressStep_valid (address : AddressJson) (errors : list string) :
  (length
     (match address with
      | AddressScalar v =>
          if negb (JS.truthy v) then push errors "Address is required"
          else if negb (notString v)
                  && (String.length (trim (stringOf v)) =? 0)%nat
          then push errors "Address must be a non-empty string"
          else errors
      | AddressJsonObject street _ city =>
          let errors0 :=
            if negb (JS.truthy street) || notString street
            then push errors "Address street is required"
            else errors in
          if negb (JS.truthy city) || notString city
          then push errors0 "Address city is required"
          else errors0
      end) =? 0)%nat = true
  <-> (length errors =? 0)%nat = true /\ addressPasses address.
Proof.
  destruct address as [v|street number city]; cbn [addressPasses].
  - destruct (JS.truthy v) eqn:Ht; cbn [negb].
    + rewrite isValid_push, andb_true_iff, negb_true_iff, andb_false_iff,
        negb_false_iff.
      assert (notString v = true
              \/ (String.length (trim (stringOf v)) =? 0)%nat = false
              <-> (forall s, v = JS.Str s -> trim s <> EmptyString)) as ->.
      { destruct v as [| |b|n|s]; cbn [notString stringOf];
          try (split; [intros _ s H; discriminate H|intros _; now left]).
        split.
        - intros [H|H] s' [= <-]; [discriminate H|].
          intros E. rewrite E in H. discriminate H.
        - intros H. right. specialize (H s eq_refl).
          destruct (trim s); [now elim H|reflexivity]. }
      tauto.
    + rewrite length_push. split; [discriminate|]. intros [_ [H _]].
      discriminate H.
  - cbv zeta. rewrite <- !fieldString_false.
    rewrite !isValid_push, !andb_true_iff, !negb_true_iff. tauto.
Qed.

Lemma outside0to5_false (x : JS.number) :
  JS.isNaN x || outside0to5 x = false
  <-> exists q, x = JS.Finite q /\ between0and5 q.
Proof.
  unfold between0and5. destruct x as [|negative|q]; cbn [JS.isNaN outside0to5 orb].
  - split; [discriminate|]. intros (q & H & _). discriminate H.
  - split; [discriminate|]. intros (q & H & _). discriminate H.
  - rewrite orb_false_iff, !negb_false_iff, !Qle_bool_iff. split.
    + intros H. exists q. split; [reflexivity|exact H].
    + intros (q' & [= <-] & H). exact H.
Qed.

Lemma ratingStep_valid (rating : field RatingJson) (errors : list string) :
  (length
     (match read rating with
      | Some v =>
          let rating := parseFloat_rating v in
          if JS.isNaN rating || outside0to5 rating
          then push errors "Rating must be a number between 0 and 5"
          else errors
      | None => errors
      end) =? 0)%nat = true
  <-> (length errors =? 0)%nat = true /\ ratingAccepted rating.
Proof.
  unfold ratingAccepted. destruct (read rating) as [v|]; [|tauto].
  cbv zeta. rewrite isValid_push, andb_true_iff, negb_true_iff,
    outside0to5_false.
  destruct v as [q|s|b]; cbn [parseFloat_rating].
  - split.
    + intros [(q' & [= <-] & H) HL]. split; assumption.
    + intros [HL H]. split; [|exact HL]. exists q. split; [reflexivity|exact H].
  - tauto.
  - split.
    + intros [(q & H & _) _]. discriminate H.
    + intros [_ H]. contradiction.
Qed.

Lemma priceSteps_valid (priceRange price_range : JS.value) :
  let p := or_value priceRange price_range in
  negb (JS.truthy p && notString p)
  && negb (JS.truthy p && negb (includes_value priceRanges p)) = true
  <-> priceRangeAccepted priceRange price_range.
Proof.
  assert (forall v, JS.truthy v = true ->
          negb (JS.truthy v && notString v)
          && negb (JS.truthy v && negb (includes_value priceRanges v)) = true
          <-> priceSymbol v) as Hv.
  { intros v Ht. rewrite Ht. cbn [andb]. unfold priceSymbol.
    destruct v as [| |b|n|s]; cbn [notString includes_value negb andb];
      try (split; [discriminate|intros (s & H & _); discriminate H]).
    rewrite negb_involutive, includes_string_In. split.
    - intros H. exists s. split; [reflexivity|exact H].
    - intros (s' & [= <-] & H). exact H. }
  unfold or_value, priceRangeAccepted. cbv zeta.
  destruct (JS.truthy priceRange) eqn:Ht; [now apply Hv|].
  destruct (Bool.bool_dec (JS.truthy price_range) true) as [Ht'|Ht'].
  - rewrite (Hv _ Ht'). split; [intros H _; exact H|]. intros H. now apply H.
  - apply not_true_is_false in Ht'. rewrite Ht'. cbn [andb negb].
    split; [intros _ H; discriminate H|reflexivity].
Qed.

Lemma validateRestaurant_valid_iff (body : RequestBody.t) :
  Validation.isValid (validateRestaurant body) = true
  <-> nonBlankString (RequestBody.name body)
      /\ nonBlankString (RequestBody.cuisine body)
      /\ addressPasses (RequestBody.address body)
      /\ ratingAccepted (RequestBody.rating body)
      /\ priceRangeAccepted (RequestBody.priceRange body)
           (RequestBody.price_range body).
Proof.
  destruct body as [name cuisine address rating priceRange price_range oh mg cg].
  unfold validateRestaurant.
  cbn [RequestBody.name RequestBody.cuisine RequestBody.address
       RequestBody.rating RequestBody.priceRange
       RequestBody.price_range Validation.isValid].
  rewrite <- !blankOrNotString_false.
  rewrite <- (priceSteps_valid priceRange price_range). cbv zeta.
  rewrite !isValid_push, !andb_true_iff.
  rewrite ratingStep_valid, addressStep_valid.
  rewrite !isValid_push, !andb_true_iff, !negb_true_iff. simpl. tauto.
Qed.


Lemma validateRestaurant_json (body : RestaurantBody.t) :
  Validation.isValid (validateRestaurant (RestaurantBody.json body)) = true ->
  nonBlankString (RestaurantBody.name body)
  /\ nonBlankString (RestaurantBody.cuisine body)
  /\ addressAccepted (RestaurantBody.address body).
Proof.
  intros H. apply validateRestaurant_valid_iff in H as (Hn & Hc & Ha & _).
  split; [exact Hn|]. split; [exact Hc|].
  destruct body as [name cuisine address rating priceRange price_range oh mg cg].
  cbn [RestaurantBody.json RequestBody.address RestaurantBody.address] in *.
  destruct address as [|s|street number city]; cbn [addressPasses addressAccepted] in *.
  - destruct Ha as [Ha _]. discriminate Ha.
  - destruct Ha as [_ Ha]. now apply Ha.
  - exact Ha.
Qed.

(** ** Creating and fetching *)

Lemma findById_app n (l1 l2 : list Restaurant) :
  findById n (l1 ++ l2)%list
  = match findById n l1 with
    | Some r => Some r
    | None => findById n l2
    end.
Proof.
  unfold findById. induction l1 as [|x l1 IH]; [reflexivity|]. simpl.
  destruct (id x =? n); [reflexivity|exact IH].
Qed.

Lemma parseInt_frontend_id (restaurant : Restaurant) :
  JS.parseInt_string
    (Frontend.id (transformRestaurantToFrontendFormat restaurant))
  = Some (id restaurant).
Proof. apply (parseInt_Number (id restaurant)). Qed.

Lemma newRestaurant_id restaurantsData body r :
  newRestaurant restaurantsData body = Some r ->
  id r = getNextId restaurantsData.
Proof.
  unfold newRestaurant.
  destruct (RequestBody.address body) as [[| |b|n|s]|street number city];
    try discriminate; intros [= <-]; reflexivity.
Qed.

Lemma post_created restaurantsData body created restaurantsData' :
  post_api_restaurants restaurantsData body = (inr created, restaurantsData') ->
  exists r,
    Validation.isValid (validateRestaurant body) = true
    /\ newRestaurant restaurantsData body = Some r
    /\ created = transformRestaurantToFrontendFormat r
    /\ restaurantsData' = (restaurantsData ++ [r])%list.
Proof.
  unfold post_api_restaurants.
  destruct (Validation.isValid (validateRestaurant body)); [|discriminate].
  cbn [negb].
  destruct (newRestaurant restaurantsData body) as [r|]; [|discriminate].
  intros [= <- <-]. exists r. repeat split.
Qed.

(** X3.  A restaurant that POST has created is fetched back by GET: the id
    string of the 201 response, given to [GET /api/restaurants/:id] on the
    new array, returns the very record of that response.  The array has
    grown by one, and every other id is answered as before. *)
Theorem created_restaurant_is_fetched (restaurantsData : list Restaurant)
    (body : RequestBody.t) (created : Frontend.Restaurant)
    (restaurantsData' : list Restaurant) :
  post_api_restaurants restaurantsData body = (inr created, restaurantsData') ->
  get_api_restaurants_id restaurantsData' (Frontend.id created) = inr created
  /\ length restaurantsData' = S (length restaurantsData)
  /\ (forall params_id,
      JS.parseInt_string params_id <> Some (getNextId restaurantsData) ->
      get_api_restaurants_id restaurantsData' params_id
      = get_api_restaurants_id restaurantsData params_id).
Proof.
  intros H. apply post_created in H as (r & _ & Hr & -> & ->).
  apply newRestaurant_id in Hr as Hid.
  destruct (getNextId_unused restaurantsData) as (_ & _ & Hfresh).
  split; [|split].
  - unfold get_api_restaurants_id. rewrite parseInt_frontend_id.
    rewrite findById_app, Hid, Hfresh. unfold findById. simpl.
    rewrite ?Hid, Z.eqb_refl. reflexivity.
  - rewrite length_app. simpl. lia.
  - intros params_id Hne. unfold get_api_restaurants_id.
    destruct (JS.parseInt_string params_id) as [n|]; [|reflexivity].
    rewrite findById_app. destruct (findById n restaurantsData); [reflexivity|].
    unfold findById. simpl. rewrite ?Hid.
    destruct (Z.eqb_spec (getNextId restaurantsData) n) as [E|E];
      [congruence|reflexivity].
Qed.

(** X4.  The record that POST stores is cleaned: its name and its cuisine
    are trimmed and not empty; its rating is missing or a number from 0 to
    5, where the number 0 is stored as no rating while a string is stored
    as the number it reads as, the string ["0"] as 0; its price tier is
    missing or one of the four price symbols; and whatever the body says
    about guests, it starts with no guests and the default capacity of
    50. *)
Theorem created_restaurant_is_clean (restaurantsData : list Restaurant)
    (body : RequestBody.t) (created : Frontend.Restaurant)
    (restaurantsData' : list Restaurant) :
  post_api_restaurants restaurantsData body = (inr created, restaurantsData') ->
  exists r,
    restaurantsData' = (restaurantsData ++ [r])%list
    /\ created = transformRestaurantToFrontendFormat r
    /\ (trim (name r) = name r /\ name r <> EmptyString)
    /\ (trim (cuisine r) = cuisine r /\ cuisine r <> EmptyString)
    /\ match rating r with
       | Some q => (0 <= q)%Q /\ (q <= 5)%Q
       | None => True
       end
    /\ (forall q, RequestBody.rating body = Given (Some (RatingNumber q)) ->
        (q == 0)%Q -> rating r = None)
    /\ (forall s, RequestBody.rating body = Given (Some (RatingString s)) ->
        exists q, JS.parseFloat s = JS.Finite q /\ rating r = Some q)
    /\ match priceTier r with
       | Some p => In p priceRanges
       | None => True
       end
    /\ Frontend.maxGuests created = 50
    /\ Frontend.currGuests created = 0.
Proof.
  intros H. apply post_created in H as (r & Hvalid & Hr & -> & ->).
  exists r. split; [reflexivity|]. split; [reflexivity|].
  apply validateRestaurant_valid_iff in Hvalid.
  destruct Hvalid as ((n & Hn & Hnb) & (c & Hc & Hcb) & _ & Hrating & Hp).
  destruct body as [name' cuisine' address' rating' priceRange' price_range'
                    oh mg cg].
  cbn [RequestBody.name RequestBody.cuisine RequestBody.rating
       RequestBody.priceRange RequestBody.price_range] in *.
  subst name' cuisine'. unfold newRestaurant in Hr.
  cbn [RequestBody.name RequestBody.cuisine RequestBody.rating
       RequestBody.priceRange RequestBody.price_range RequestBody.address
       RequestBody.openingHours stringOf] in Hr.
  destruct (match address' with
            | AddressScalar (JS.Str s) => Some (AddressText (trim s))
            | AddressScalar _ => None
            | AddressJsonObject street number city =>
                Some (AddressObject (stringOf street) number (stringOf city))
            end) as [a|]; [|discriminate Hr].
  injection Hr as <-. unfold priceTier.
  cbn [name cuisine rating priceRange price_range
       transformRestaurantToFrontendFormat Frontend.priceRange
       Frontend.maxGuests Frontend.currGuests maxGuests currGuests].
  split; [split; [apply trim_idem|exact Hnb]|].
  split; [split; [apply trim_idem|exact Hcb]|].
  unfold ratingAccepted, between0and5 in Hrating.
  repeat match goal with |- _ /\ _ => split end; try reflexivity.
  - destruct (read rating') as [[q|s|b]|]; try exact I; try contradiction;
      cbn [truthy_rating parseFloat_rating].
    + destruct (negb (Qeq_bool q 0)); [exact Hrating|exact I].
    + destruct Hrating as (q & -> & Hq).
      destruct (negb (s =? "")%string); [exact Hq|exact I].
  - intros q -> Hq. cbn [read truthy_rating].
    apply Qeq_bool_iff in Hq. rewrite Hq. reflexivity.
  - intros s ->. cbn [read truthy_rating parseFloat_rating] in *.
    destruct Hrating as (q & Hs & _). exists q. split; [exact Hs|].
    destruct (String.eqb_spec s EmptyString) as [->|_];
      [discriminate Hs|].
    cbn [negb]. rewrite Hs. reflexivity.
  - unfold priceRangeAccepted, priceSymbol in Hp. unfold or_value, JS.or_str.
    destruct (JS.truthy priceRange') eqn:Ht.
    + rewrite Ht. destruct Hp as (s & -> & Hs). cbn [stringOf].
      unfold JS.truthy_str. cbn [JS.truthy] in Ht. rewrite Ht. exact Hs.
    + destruct (JS.truthy price_range') eqn:Ht'; [|exact I].
      destruct (Hp eq_refl) as (s & -> & Hs). cbn [stringOf].
      unfold JS.truthy_str. cbn [JS.truthy] in Ht'. rewrite Ht'. exact Hs.
Qed.

Lemma created_restaurant_is_fetched_witness :
  exists r,
    post_api_restaurants seed pizzaBody
    = (inr (transformRestaurantToFrontendFormat r), seed ++ [r])%list
    /\ get_api_restaurants_id (seed ++ [r])%list "4"
       = inr (transformRestaurantToFrontendFormat r).
Proof.
  destruct (newRestaurant seed pizzaBody) as [r|] eqn:Hr;
    [|discriminate Hr].
  exists r.
  assert (post_api_restaurants seed pizzaBody
          = (inr (transformRestaurantToFrontendFormat r),
             seed ++ [r])%list) as H.
  { unfold post_api_restaurants. rewrite Hr. reflexivity. }
  split; [exact H|].
  pose proof (proj1 (created_restaurant_is_fetched _ _ _ _ H)) as Hget.
  injection Hr as <-. exact Hget.
Defined.

Lemma created_restaurant_is_clean_witness :
  exists r,
    snd (post_api_restaurants seed pizzaBody) = (seed ++ [r])%list
    /\ rating r = Some 0%Q
    /\ Frontend.maxGuests (transformRestaurantToFrontendFormat r) = 50.
Proof.
  destruct (newRestaurant seed pizzaBody) as [r0|] eqn:Hr;
    [|discriminate Hr].
  assert (post_api_restaurants seed pizzaBody
          = (inr (transformRestaurantToFrontendFormat r0),
             seed ++ [r0])%list) as H.
  { unfold post_api_restaurants. rewrite Hr. reflexivity. }
  destruct (created_restaurant_is_clean _ _ _ _ H)
    as (r & Hl & Hc & _ & _ & _ & _ & Hs & _ & Hm & _).
  exists r. rewrite H. cbn [snd]. split; [exact Hl|].
  destruct (Hs "0" eq_refl) as (q & Hq & Hrq).
  vm_compute in Hq. injection Hq as <-.
  split; [exact Hrq|]. rewrite Hc in Hm. exact Hm.
Defined.

(** A body whose address is the number 42 passes the validation and makes
    the create handler fail; the array is left as it was. *)
Example numbered_address_passes_validation :
  Validation.isValid (validateRestaurant numberedBody) = true
  /\ post_api_restaurants seed numberedBody = (inl CreatingFailed, seed).
Proof. split; reflexivity. Qed.

(** ** Updating and deleting *)

Lemma findById_None n (l : list Restaurant) :
  findById n l = None <-> Forall (fun r => id r <> n) l.
Proof. rewrite findById_findIndex, <- findIndex_None.
  destruct (findIndex n l); simpl; split; congruence. Qed.

Lemma findById_insert_other n (l : list Restaurant) i r u :
  l !! i = Some r -> id r <> n -> id u <> n ->
  findById n (<[i := u]> l) = findById n l.
Proof.
  unfold findById. revert i. induction l as [|x l IH]; intros i Hi Hr Hu;
    [reflexivity|].
  destruct i as [|i]; simpl in *.
  - injection Hi as ->. apply Z.eqb_neq in Hr, Hu. rewrite Hr, Hu.
    reflexivity.
  - destruct (id x =? n); [reflexivity|]. now apply IH.
Qed.

Lemma findById_insert_found n (l : list Restaurant) i r u :
  findIndex n l = Some (i, r) -> id u = n ->
  findById n (<[i := u]> l) = Some u.
Proof.
  intros Hf Hu. apply findIndex_Some in Hf as (Hi & _ & Hbefore).
  unfold findById. revert i Hi Hbefore.
  induction l as [|x l IH]; intros i Hi Hbefore; [discriminate|].
  destruct i as [|i]; simpl in *.
  - rewrite Hu, Z.eqb_refl. reflexivity.
  - assert (id x <> n) as Hx by (apply (Hbefore 0%nat x); [reflexivity|lia]).
    apply Z.eqb_neq in Hx. rewrite Hx. apply IH; [exact Hi|].
    intros j y Hj Hlt. apply (Hbefore (S j) y); [exact Hj|lia].
Qed.

Lemma findById_delete_other n (l : list Restaurant) i r :
  l !! i = Some r -> id r <> n ->
  findById n (delete i l) = findById n l.
Proof.
  unfold findById. revert i. induction l as [|x l IH]; intros i Hi Hr;
    [reflexivity|].
  destruct i as [|i]; simpl in *.
  - injection Hi as ->. apply Z.eqb_neq in Hr. rewrite Hr. reflexivity.
  - destruct (id x =? n); [reflexivity|]. now apply IH.
Qed.

Lemma ids_insert (l : list Restaurant) i r u :
  l !! i = Some r -> id u = id r -> ids (<[i := u]> l) = ids l.
Proof.
  intros Hi Hu. unfold ids. rewrite list_fmap_insert, Hu.
  apply list_insert_id. rewrite list_lookup_fmap, Hi. reflexivity.
Qed.

Lemma ids_delete (l : list Restaurant) i : ids (delete i l) = delete i (ids l).
Proof.
  unfold ids. revert i. induction l as [|x l IH]; intros [|i]; simpl;
    try reflexivity. f_equal. apply IH.
Qed.

Lemma findById_delete_gone n (l : list Restaurant) i r :
  NoDup (ids l) -> l !! i = Some r -> id r = n ->
  findById n (delete i l) = None.
Proof.
  intros Hnd Hi Hr. apply findById_None, Forall_forall. intros x Hx Hid.
  apply list_elem_of_lookup in Hx as [j Hj].
  assert (exists j', j' <> i /\ l !! j' = Some x) as (j' & Hne & Hj').
  { destruct (Nat.lt_ge_cases j i) as [Hlt|Hge].
    - exists j. split; [lia|]. now rewrite list_lookup_delete_lt in Hj.
    - exists (S j). split; [lia|]. now rewrite list_lookup_delete_ge in Hj. }
  apply Hne. apply (NoDup_lookup (ids l) j' i n); [exact Hnd|..]; unfold ids;
    rewrite list_lookup_fmap.
  - rewrite Hj'. simpl. congruence.
  - rewrite Hi. simpl. congruence.
Qed.

(** X5.  With unique ids, a deleted restaurant is gone and nothing else is
    touched: after a successful DELETE, GET of the same id is a 404, GET of
    any other id answers as before, and the array is the old one without one
    record, the others in their order. *)
Theorem deleted_restaurant_is_gone (restaurantsData : list Restaurant)
    (params_id message' : string) (restaurantsData' : list Restaurant) :
  NoDup (ids restaurantsData) ->
  delete_api_restaurants_id restaurantsData params_id
  = (inr message', restaurantsData') ->
  (exists id', JS.parseInt_string params_id = Some id'
     /\ get_api_restaurants_id restaurantsData' params_id = inl (NotFound id'))
  /\ (forall other,
      JS.parseInt_string other <> JS.parseInt_string params_id ->
      get_api_restaurants_id restaurantsData' other
      = get_api_restaurants_id restaurantsData other)
  /\ S (length restaurantsData') = length restaurantsData
  /\ sublist restaurantsData' restaurantsData.
Proof.
  intros Hnd. unfold delete_api_restaurants_id.
  destruct (JS.parseInt_string params_id) as [n|] eqn:Hp; [|discriminate].
  destruct (findIndex n restaurantsData) as [[i r]|] eqn:Hf; [|discriminate].
  intros [= _ <-]. apply findIndex_Some in Hf as (Hi & Hr & _).
  split; [|split; [|split]].
  - exists n. split; [reflexivity|]. unfold get_api_restaurants_id.
    rewrite Hp, (findById_delete_gone n _ i r Hnd Hi Hr). reflexivity.
  - intros other Hne. unfold get_api_restaurants_id.
    destruct (JS.parseInt_string other) as [m|]; [|reflexivity].
    rewrite (findById_delete_other m _ i r Hi); [reflexivity|congruence].
  - rewrite length_delete by (rewrite Hi; eauto).
    apply lookup_lt_Some in Hi. lia.
  - apply sublist_delete.
Qed.

(** X6.  DELETE fails as GET does: an id string that GET rejects or does not
    find makes DELETE answer the same error and leave the array as it is;
    an id that GET finds is deleted: DELETE removes the record that GET
    returns, the first one carrying that id, keeps every other record in
    its place, and names the id in its message. *)
Theorem delete_fails_as_get (restaurantsData : list Restaurant)
    (params_id : string) :
  match get_api_restaurants_id restaurantsData params_id with
  | inl e =>
      delete_api_restaurants_id restaurantsData params_id
      = (inl e, restaurantsData)
  | inr found =>
      exists i r,
        restaurantsData !! i = Some r
        /\ JS.parseInt_string params_id = Some (id r)
        /\ found = transformRestaurantToFrontendFormat r
        /\ (forall j y, restaurantsData !! j = Some y -> (j < i)%nat ->
            id y <> id r)
        /\ delete_api_restaurants_id restaurantsData params_id
           = (inr ("Restaurant with ID " ++ JS.ToString (JS.Number (id r))
                   ++ " deleted successfully"),
              delete i restaurantsData)
  end.
Proof.
  unfold get_api_restaurants_id, delete_api_restaurants_id.
  destruct (JS.parseInt_string params_id) as [n|]; [|reflexivity].
  rewrite findById_findIndex.
  destruct (findIndex n restaurantsData) as [[i r]|] eqn:E; simpl;
    [|reflexivity].
  apply findIndex_Some in E as (Hi & Hid & Hfirst). subst n.
  exists i, r. repeat match goal with |- _ /\ _ => split end;
    try reflexivity; assumption.
Qed.

Lemma deleted_restaurant_is_gone_witness :
  delete_api_restaurants_id seed "2"
  = (inr "Restaurant with ID 2 deleted successfully", [chefYam; shakshukaHouse])
  /\ get_api_restaurants_id [chefYam; shakshukaHouse] "2" = inl (NotFound 2).
Proof.
  assert (NoDup (ids seed)) as Hnd
    by (apply (bool_decide_unpack _); vm_compute; exact I).
  assert (delete_api_restaurants_id seed "2"
          = (inr "Restaurant with ID 2 deleted successfully",
             [chefYam; shakshukaHouse])) as H by (vm_compute; reflexivity).
  split; [exact H|].
  destruct (deleted_restaurant_is_gone _ _ _ _ Hnd H) as ((n & Hn & Hget) & _).
  vm_compute in Hn. injection Hn as <-. exact Hget.
Defined.

Lemma put_success (restaurantsData : list Restaurant) params_id body u
    restaurantsData' :
  put_api_restaurants_id restaurantsData params_id body
  = (inr u, restaurantsData') ->
  exists n i r,
    JS.parseInt_string params_id = Some n
    /\ findIndex n restaurantsData = Some (i, r)
    /\ Validation.isValid (validateRestaurant (RestaurantBody.json body)) = true
    /\ u = transformRestaurantToFrontendFormat (updated r n body)
    /\ restaurantsData' = <[i := updated r n body]> restaurantsData.
Proof.
  unfold put_api_restaurants_id.
  destruct (JS.parseInt_string params_id) as [n|]; [|discriminate].
  destruct (findIndex n restaurantsData) as [[i r]|] eqn:Hf; [|discriminate].
  destruct (Validation.isValid (validateRestaurant (RestaurantBody.json body))) eqn:Hv;
    [|discriminate].
  cbn [negb]. intros [= <- <-]. exists n, i, r. repeat split; assumption.
Qed.

(** X7.  An updated restaurant is fetched back: after a successful PUT, GET
    of the same id returns the record of the PUT response; the array keeps
    its length and its ids, and GET of any other id answers as before. *)
Theorem updated_restaurant_is_fetched (restaurantsData : list Restaurant)
    (params_id : string) (body : RestaurantBody.t) (u : Frontend.Restaurant)
    (restaurantsData' : list Restaurant) :
  put_api_restaurants_id restaurantsData params_id body
  = (inr u, restaurantsData') ->
  get_api_restaurants_id restaurantsData' params_id = inr u
  /\ length restaurantsData' = length restaurantsData
  /\ ids restaurantsData' = ids restaurantsData
  /\ (forall other,
      JS.parseInt_string other <> JS.parseInt_string params_id ->
      get_api_restaurants_id restaurantsData' other
      = get_api_restaurants_id restaurantsData other).
Proof.
  intros H. apply put_success in H as (n & i & r & Hp & Hf & _ & -> & ->).
  pose proof Hf as Hf'. apply findIndex_Some in Hf' as (Hi & Hr & _).
  split; [|split; [|split]].
  - unfold get_api_restaurants_id. rewrite Hp.
    rewrite (findById_insert_found n _ i r _ Hf); reflexivity.
  - apply length_insert.
  - apply (ids_insert _ i r); [exact Hi|]. simpl. congruence.
  - intros other Hne. unfold get_api_restaurants_id.
    destruct (JS.parseInt_string other) as [m|]; [|reflexivity].
    rewrite (findById_insert_other m _ i r); [reflexivity|exact Hi|..];
      simpl; congruence.
Qed.

(** X8.  A PUT leaves the keys it does not mention as they were: when the
    body has no [maxGuests], no [currGuests] or no [rating], the response
    shows for that key what GET showed before the update, and the id is the
    same whatever the body holds. *)
Theorem update_keeps_unmentioned_keys (restaurantsData : list Restaurant)
    (params_id : string) (body : RestaurantBody.t) (u : Frontend.Restaurant)
    (restaurantsData' : list Restaurant) :
  put_api_restaurants_id restaurantsData params_id body
  = (inr u, restaurantsData') ->
  exists before,
    get_api_restaurants_id restaurantsData params_id = inr before
    /\ Frontend.id u = Frontend.id before
    /\ (RestaurantBody.maxGuests body = Absent ->
        Frontend.maxGuests u = Frontend.maxGuests before)
    /\ (RestaurantBody.currGuests body = Absent ->
        Frontend.currGuests u = Frontend.currGuests before)
    /\ (RestaurantBody.rating body = Absent ->
        Frontend.rating u = Frontend.rating before).
Proof.
  intros H. apply put_success in H as (n & i & r & Hp & Hf & _ & -> & ->).
  exists (transformRestaurantToFrontendFormat r).
  unfold get_api_restaurants_id. rewrite Hp, findById_findIndex, Hf.
  apply findIndex_Some in Hf as (_ & Hr & _).
  split; [reflexivity|]. split; [simpl; congruence|].
  split; [|split]; intros Habs; simpl; rewrite Habs; reflexivity.
Qed.

(** X9.  PUT takes no partial update: a body whose name or cuisine is not a
    non-blank string, or whose address the validation refuses, is never
    applied; whatever the id, the answer is an error and the array is
    unchanged. *)
Theorem update_needs_name_cuisine_address (restaurantsData : list Restaurant)
    (params_id : string) (body : RestaurantBody.t) :
  ~ (nonBlankString (RestaurantBody.name body)
     /\ nonBlankString (RestaurantBody.cuisine body)
     /\ addressAccepted (RestaurantBody.address body)) ->
  exists e,
    put_api_restaurants_id restaurantsData params_id body
    = (inl e, restaurantsData).
Proof.
  intros Hmissing. unfold put_api_restaurants_id.
  destruct (JS.parseInt_string params_id) as [n|]; [|eauto].
  destruct (findIndex n restaurantsData) as [[i r]|]; [|eauto].
  destruct (Validation.isValid (validateRestaurant (RestaurantBody.json body))) eqn:Hv;
    cbn [negb]; [|eauto].
  apply validateRestaurant_json in Hv. exfalso. apply Hmissing. exact Hv.
Qed.

(** X10.  PUT stores [maxGuests] and [currGuests] as given, with no capacity
    check: an accepted update whose [currGuests] exceeds its non-zero
    [maxGuests] leaves the array with a record over its capacity. *)
Theorem update_skips_capacity_check (restaurantsData : list Restaurant)
    (params_id : string) (body : RestaurantBody.t) (u : Frontend.Restaurant)
    (restaurantsData' : list Restaurant) (m c : Z) :
  put_api_restaurants_id restaurantsData params_id body
  = (inr u, restaurantsData') ->
  RestaurantBody.maxGuests body = Given (Some m) ->
  RestaurantBody.currGuests body = Given (Some c) ->
  m <> 0 -> m < c ->
  Frontend.maxGuests u = m /\ Frontend.currGuests u = c
  /\ ~ Forall withinCapacity restaurantsData'.
Proof.
  intros H Hm Hc Hm0 Hlt.
  apply put_success in H as (n & i & r & Hp & Hf & _ & -> & ->).
  apply findIndex_Some in Hf as (Hi & _).
  assert (Frontend.maxGuests
            (transformRestaurantToFrontendFormat (updated r n body)) = m) as Em.
  { simpl. rewrite Hm. simpl. apply Z.eqb_neq in Hm0. rewrite Hm0.
    reflexivity. }
  assert (Frontend.currGuests
            (transformRestaurantToFrontendFormat (updated r n body)) = c) as Ec.
  { simpl. rewrite Hc. simpl. apply or_int_zero. }
  split; [exact Em|]. split; [exact Ec|].
  intros Hall. rewrite Forall_lookup in Hall.
  specialize (Hall i (updated r n body)).
  unfold withinCapacity in Hall. rewrite Em, Ec in Hall.
  assert (c <= m); [|lia]. apply Hall. apply list_lookup_insert_eq.
  now apply lookup_lt_Some in Hi.
Qed.

Lemma updated_restaurant_is_fetched_witness :
  put_api_restaurants_id seed "1" renameBody
  = (inr (transformRestaurantToFrontendFormat (updated chefYam 1 renameBody)),
     [updated chefYam 1 renameBody; mamaRoma; shakshukaHouse])
  /\ get_api_restaurants_id
       [updated chefYam 1 renameBody; mamaRoma; shakshukaHouse] "1"
     = inr (transformRestaurantToFrontendFormat (updated chefYam 1 renameBody)).
Proof.
  assert (put_api_restaurants_id seed "1" renameBody
          = (inr (transformRestaurantToFrontendFormat
                    (updated chefYam 1 renameBody)),
             [updated chefYam 1 renameBody; mamaRoma; shakshukaHouse])) as H
    by (vm_compute; reflexivity).
  split; [exact H|].
  exact (proj1 (updated_restaurant_is_fetched _ _ _ _ _ H)).
Defined.

Lemma update_keeps_unmentioned_keys_witness :
  Frontend.maxGuests
    (transformRestaurantToFrontendFormat (updated chefYam 1 renameBody))
  = Frontend.maxGuests (transformRestaurantToFrontendFormat chefYam).
Proof.
  assert (put_api_restaurants_id seed "1" renameBody
          = (inr (transformRestaurantToFrontendFormat
                    (updated chefYam 1 renameBody)),
             [updated chefYam 1 renameBody; mamaRoma; shakshukaHouse])) as H
    by (vm_compute; reflexivity).
  destruct (update_keeps_unmentioned_keys _ _ _ _ _ H)
    as (before & Hget & _ & Hm & _).
  vm_compute in Hget. injection Hget as <-. apply Hm. reflexivity.
Defined.

Lemma update_needs_name_cuisine_address_witness :
  snd (put_api_restaurants_id seed "1" ratingOnlyBody) = seed.
Proof.
  destruct (update_needs_name_cuisine_address seed "1" ratingOnlyBody)
    as [e He].
  - intros ((s & Hs & _) & _). discriminate Hs.
  - rewrite He. reflexivity.
Defined.

Lemma update_skips_capacity_check_witness :
  ~ Forall withinCapacity
      [updated chefYam 1 crowdedBody; mamaRoma; shakshukaHouse].
Proof.
  assert (put_api_restaurants_id seed "1" crowdedBody
          = (inr (transformRestaurantToFrontendFormat
                    (updated chefYam 1 crowdedBody)),
             [updated chefYam 1 crowdedBody; mamaRoma; shakshukaHouse])) as H
    by (vm_compute; reflexivity).
  apply (update_skips_capacity_check _ _ _ _ _ 10 25 H);
    [reflexivity|reflexivity|lia|lia].
Defined.

(** ** Unique ids *)

Lemma reservation_ids now (restaurantsData : list Restaurant) body :
  ids (snd (post_api_reservations now restaurantsData body))
  = ids restaurantsData.
Proof.
  destruct (post_api_reservations_outcome now restaurantsData body)
    as [e _ | n g i r _ _ _ _ Hf _]; cbn [snd]; [reflexivity|].
  apply findIndex_Some in Hf as (Hi & _).
  apply (ids_insert _ i r); [exact Hi|reflexivity].
Qed.

(** X11.  No handler makes two records share an id: if the ids of the array
    are pairwise distinct, they still are after a create, an update, a
    delete or a reservation, accepted or not. *)
Theorem ids_stay_unique (now : Z) (restaurantsData : list Restaurant)
    (params_id : string) (draft : RequestBody.t) (body : RestaurantBody.t)
    (reservation' : Body.t) :
  NoDup (ids restaurantsData) ->
  NoDup (ids (snd (post_api_restaurants restaurantsData draft)))
  /\ NoDup (ids (snd (put_api_restaurants_id restaurantsData params_id body)))
  /\ NoDup (ids (snd (delete_api_restaurants_id restaurantsData params_id)))
  /\ NoDup (ids (snd (post_api_reservations now restaurantsData reservation'))).
Proof.
  intros Hnd. split; [|split; [|split]].
  - unfold post_api_restaurants.
    destruct (Validation.isValid (validateRestaurant draft)); cbn [negb snd];
      [|exact Hnd].
    destruct (newRestaurant restaurantsData draft) as [new|] eqn:Hnew;
      cbn [snd]; [|exact Hnd].
    apply newRestaurant_id in Hnew.
    unfold ids. rewrite map_app. apply NoDup_app. split; [exact Hnd|].
    split; [|apply NoDup_singleton].
    intros x Hx Hin. apply list_elem_of_singleton in Hin. subst x.
    apply list_elem_of_fmap in Hx as (r & Hid & Hr).
    destruct (getNextId_unused restaurantsData) as (Hlt & _).
    rewrite Forall_forall in Hlt. specialize (Hlt r Hr). simpl in Hid. lia.
  - destruct (put_api_restaurants_id restaurantsData params_id body)
      as [[e|u] data'] eqn:H; cbn [snd].
    + unfold put_api_restaurants_id in H.
      destruct (JS.parseInt_string params_id) as [n|];
        [|injection H as _ <-; exact Hnd].
      destruct (findIndex n restaurantsData) as [[i r]|];
        [|injection H as _ <-; exact Hnd].
      destruct (Validation.isValid (validateRestaurant (RestaurantBody.json body)));
        [discriminate|injection H as _ <-; exact Hnd].
    + apply put_success in H as (n & i & r & _ & Hf & _ & _ & ->).
      apply findIndex_Some in Hf as (Hi & Hr & _).
      rewrite (ids_insert _ i r); [exact Hnd|exact Hi|]. simpl. congruence.
  - unfold delete_api_restaurants_id.
    destruct (JS.parseInt_string params_id) as [n|]; [|exact Hnd].
    destruct (findIndex n restaurantsData) as [[i r]|]; cbn [snd];
      [|exact Hnd].
    rewrite ids_delete. eapply sublist_NoDup; [exact Hnd|apply sublist_delete].
  - rewrite reservation_ids. exact Hnd.
Qed.

Lemma ids_stay_unique_witness :
  NoDup (ids (snd (post_api_restaurants seed pizzaBody)))
  /\ NoDup (ids (snd (delete_api_restaurants_id seed "2"))).
Proof.
  assert (NoDup (ids seed)) as Hnd
    by (apply (bool_decide_unpack _); vm_compute; exact I).
  destruct (ids_stay_unique wednesdayNoon seed "2" pizzaBody renameBody
              (reservation 1 10) Hnd) as (H1 & _ & H3 & _).
  split; [exact H1|exact H3].
Defined.

(** ** More on reservations *)

Lemma reservation_accepted now (restaurantsData : list Restaurant)
    restaurantId date time numGuests n g i r :
  JS.truthy restaurantId = true -> JS.truthy_str date = true ->
  JS.truthy_str time = true -> JS.truthy numGuests = true ->
  validateDate now (str date) = Valid ->
  JS.parseInt numGuests = Some g -> 0 < g ->
  JS.parseInt restaurantId = Some n ->
  findIndex n restaurantsData = Some (i, r) ->
  isRestaurantOpen r (str date) (str time) = true ->
  g <= Checks.availableCapacity r ->
  post_api_reservations now restaurantsData
    (Body.Build_t restaurantId date time numGuests)
  = (inr {| Created.restaurantId := n; Created.date := str date;
            Created.time := str time; Created.numGuests := g;
            Created.restaurant :=
              transformRestaurantToFrontendFormat
                (set_currGuests (JS.or_int (currGuests r) 0 + g) r) |},
     <[i := set_currGuests (JS.or_int (currGuests r) 0 + g) r]> restaurantsData).
Proof.
  intros Hid Hd Ht Hg Hv Hpg Hpos Hpi Hf Ho Hcap.
  unfold post_api_reservations.
  rewrite Hid, Hd, Ht, Hg, Hv, Hpg, Hpi, Hf, Ho. cbn [negb orb].
  assert ((g <=? 0) = false) as -> by lia.
  fold (Checks.availableCapacity r).
  assert ((Checks.availableCapacity r <? g) = false) as -> by lia.
  reflexivity.
Qed.

Lemma reservation_accepted_inv now (restaurantsData : list Restaurant) body
    created restaurantsData' :
  post_api_reservations now restaurantsData body = (inr created, restaurantsData') ->
  exists n g i r,
    JS.truthy (Body.restaurantId body) = true
    /\ JS.truthy_str (Body.date body) = true
    /\ JS.truthy_str (Body.time body) = true
    /\ JS.truthy (Body.numGuests body) = true
    /\ validateDate now (str (Body.date body)) = Valid
    /\ JS.parseInt (Body.numGuests body) = Some g /\ 0 < g
    /\ JS.parseInt (Body.restaurantId body) = Some n
    /\ findIndex n restaurantsData = Some (i, r)
    /\ isRestaurantOpen r (str (Body.date body)) (str (Body.time body)) = true
    /\ g <= Checks.availableCapacity r
    /\ Created.numGuests created = g
    /\ Created.restaurant created
       = transformRestaurantToFrontendFormat
           (set_currGuests (JS.or_int (currGuests r) 0 + g) r)
    /\ restaurantsData'
       = <[i := set_currGuests (JS.or_int (currGuests r) 0 + g) r]>
           restaurantsData.
Proof.
  destruct body as [restaurantId date time numGuests].
  unfold post_api_reservations. cbn [Body.restaurantId Body.date Body.time
                                     Body.numGuests].
  destruct (JS.truthy restaurantId); cbn [negb orb]; [|discriminate].
  destruct (JS.truthy_str date); cbn [negb orb]; [|discriminate].
  destruct (JS.truthy_str time); cbn [negb orb]; [|discriminate].
  destruct (JS.truthy numGuests); cbn [negb orb]; [|discriminate].
  destruct (validateDate now (str date)); [|discriminate].
  destruct (JS.parseInt numGuests) as [g|]; [|discriminate].
  destruct (g <=? 0) eqn:Hg; [discriminate|].
  destruct (JS.parseInt restaurantId) as [n|]; [|discriminate].
  destruct (findIndex n restaurantsData) as [[i r]|] eqn:Hf; [|discriminate].
  destruct (isRestaurantOpen r (str date) (str time)) eqn:Ho; cbn [negb];
    [|discriminate].
  fold (Checks.availableCapacity r).
  destruct (Checks.availableCapacity r <? g) eqn:Hc; [discriminate|].
  intros [= <- <-]. exists n, g, i, r.
  repeat match goal with |- _ /\ _ => split end;
    try reflexivity; try assumption; lia.
Qed.

Lemma sameButGuests_refl r : sameButGuests r r.
Proof. unfold sameButGuests. tauto. Qed.

(** X12.  A reservation request touches nothing but guest counts: after it,
    accepted or not, the array has the same length and every record has its
    id, name, cuisine, address, rating, price tier, opening hours and
    capacity as before; and no guest count has gone down. *)
Theorem reservation_changes_guests_only (now : Z)
    (restaurantsData : list Restaurant) (body : Body.t) :
  Forall2
    (fun r r' =>
       sameButGuests r r'
       /\ Frontend.currGuests (transformRestaurantToFrontendFormat r)
          <= Frontend.currGuests (transformRestaurantToFrontendFormat r'))
    restaurantsData (snd (post_api_reservations now restaurantsData body)).
Proof.
  assert (Forall2
            (fun r r' =>
               sameButGuests r r'
               /\ Frontend.currGuests (transformRestaurantToFrontendFormat r)
                  <= Frontend.currGuests
                       (transformRestaurantToFrontendFormat r'))
            restaurantsData restaurantsData) as Hrefl.
  { apply Forall2_same_length_lookup. split; [reflexivity|].
    intros i x y Hx Hy. rewrite Hx in Hy. injection Hy as <-.
    split; [apply sameButGuests_refl|lia]. }
  destruct (post_api_reservations_outcome now restaurantsData body)
    as [e _ | n g i r _ _ _ Hpos Hf _]; cbn [snd]; [exact Hrefl|].
  apply findIndex_Some in Hf as (Hi & _).
  rewrite <- (list_insert_id restaurantsData i r Hi) at 1.
  apply Forall2_insert; [exact Hrefl|].
  split; [unfold sameButGuests; simpl; tauto|].
  unfold transformRestaurantToFrontendFormat, set_currGuests.
  cbn [Frontend.currGuests currGuests]. rewrite or_int_zero. lia.
Qed.

Lemma findIndex_insert_same n (l : list Restaurant) i r u :
  findIndex n l = Some (i, r) -> id u = n ->
  findIndex n (<[i := u]> l) = Some (i, u).
Proof.
  intros Hf Hu. apply findIndex_Some in Hf as (Hi & _ & Hbefore).
  apply findIndex_Some. split; [|split; [exact Hu|]].
  - apply list_lookup_insert_eq. now apply lookup_lt_Some in Hi.
  - intros j y Hj Hlt. rewrite list_lookup_insert_ne in Hj by lia.
    now apply (Hbefore j y).
Qed.

Lemma findIndex_unique (l : list Restaurant) i r :
  NoDup (ids l) -> l !! i = Some r -> findIndex (id r) l = Some (i, r).
Proof.
  intros Hnd Hi. apply findIndex_Some. split; [exact Hi|]. split; [reflexivity|].
  intros j y Hj Hlt Hid.
  assert (j = i); [|lia].
  apply (NoDup_lookup (ids l) j i (id r)); [exact Hnd|..]; unfold ids;
    rewrite list_lookup_fmap.
  - rewrite Hj. simpl. congruence.
  - rewrite Hi. reflexivity.
Qed.

Lemma parseInt_truthy (v : JS.value) (n : Z) :
  JS.parseInt v = Some n -> n <> 0 -> JS.truthy v = true.
Proof.
  destruct v as [| |b|m|s]; cbn [JS.truthy].
  - discriminate.
  - discriminate.
  - destruct b; [reflexivity|discriminate].
  - rewrite parseInt_Number. intros [= ->] Hn.
    now apply negb_true_iff, Z.eqb_neq.
  - destruct s; [discriminate|reflexivity].
Qed.

(** X13.  Reservations add up: when a reservation is accepted and a second
    one for the same restaurant, date and time is accepted after it, a
    single reservation whose guest count reads as the sum of the two would
    have been accepted in their place, and it leaves the same array and the
    same record in its response.  The counts of the array and the sum are
    safe integers, on which the arithmetic of the handler is exact. *)
Theorem two_reservations_add_up (now : Z) (restaurantsData : list Restaurant)
    (body : Body.t) (numGuests2 numGuests : JS.value)
    (created1 created2 : Created.t)
    (restaurantsData1 restaurantsData2 : list Restaurant) :
  Forall safeCounts restaurantsData ->
  post_api_reservations now restaurantsData body
  = (inr created1, restaurantsData1) ->
  post_api_reservations now restaurantsData1 (withGuests body numGuests2)
  = (inr created2, restaurantsData2) ->
  Created.numGuests created1 + Created.numGuests created2
  <= MAX_SAFE_INTEGER ->
  JS.parseInt numGuests
  = Some (Created.numGuests created1 + Created.numGuests created2) ->
  exists created,
    post_api_reservations now restaurantsData (withGuests body numGuests)
    = (inr created, restaurantsData2)
    /\ Created.restaurant created = Created.restaurant created2
    /\ Created.numGuests created
       = Created.numGuests created1 + Created.numGuests created2.
Proof.
  intros _ H1 H2 _ Hsum.
  apply reservation_accepted_inv in H1
    as (n & g1 & i & r & Hid & Hd & Ht & Hg & Hv & Hpg & Hpos & Hpi & Hf & Ho
        & Hcap & Hn1 & _ & ->).
  apply reservation_accepted_inv in H2
    as (n' & g2 & i' & r' & _ & _ & _ & _ & _ & Hpg2 & Hpos2 & Hpi' & Hf' & _
        & Hcap2 & Hn2 & Hr2 & ->).
  cbn [withGuests Body.restaurantId Body.numGuests] in Hpi', Hpg2.
  rewrite Hpi in Hpi'. injection Hpi' as <-.
  assert (id r = n) as Hrn
    by (pose proof Hf as Hf0; apply findIndex_Some in Hf0; tauto).
  rewrite (findIndex_insert_same n _ i r
             (set_currGuests (JS.or_int (currGuests r) 0 + g1) r) Hf Hrn)
    in Hf'.
  injection Hf' as <- <-.
  assert (Checks.availableCapacity
            (set_currGuests (JS.or_int (currGuests r) 0 + g1) r)
          = Checks.availableCapacity r - g1) as Hav.
  { unfold Checks.availableCapacity, set_currGuests.
    cbn [maxGuests currGuests]. rewrite or_int_zero. lia. }
  rewrite Hav in Hcap2.
  assert (set_currGuests
            (JS.or_int
               (currGuests (set_currGuests (JS.or_int (currGuests r) 0 + g1) r))
               0 + g2)
            (set_currGuests (JS.or_int (currGuests r) 0 + g1) r)
          = set_currGuests (JS.or_int (currGuests r) 0 + (g1 + g2)) r) as Hset.
  { unfold set_currGuests at 1 2. cbn [currGuests]. rewrite or_int_zero.
    unfold set_currGuests. cbn. f_equal. f_equal. lia. }
  rewrite Hn1, Hn2 in *. eexists. split; [|split].
  - unfold withGuests.
    rewrite (reservation_accepted now restaurantsData _ _ _ _ n (g1 + g2) i r);
      try assumption.
    + rewrite list_insert_insert_eq, Hset. reflexivity.
    + apply (parseInt_truthy _ _ Hsum). lia.
    + lia.
    + lia.
  - cbn [Created.restaurant]. rewrite Hr2, Hset. reflexivity.
  - reflexivity.
Qed.

(** X14.  What a search offers can be reserved: with unique ids, a
    restaurant returned by a search that gives a date, a time and a guest
    count reading as a positive integer accepts, at the same moment, the
    reservation made of its id string and of these three values. *)
Theorem search_result_can_be_reserved (now : Z)
    (restaurantsData : list Restaurant) (query : Query.t)
    (l : list Restaurant) (r : Restaurant) (g : Z) :
  NoDup (ids restaurantsData) ->
  filteredData now restaurantsData query = inr l -> In r l ->
  JS.truthy_str (Query.date query) = true ->
  JS.truthy_str (Query.time query) = true ->
  JS.truthy_str (Query.numGuests query) = true ->
  JS.parseInt_string (str (Query.numGuests query)) = Some g -> 0 < g ->
  exists created restaurantsData',
    post_api_reservations now restaurantsData
      (reservationFor query (transformRestaurantToFrontendFormat r))
    = (inr created, restaurantsData')
    /\ Created.restaurantId created = id r
    /\ Created.numGuests created = g.
Proof.
  intros Hnd Hl Hin Hd Ht Hng Hpg Hpos.
  rewrite filteredData_satisfies in Hl.
  destruct (Criteria.dateError now query) as [e|] eqn:Hde; [discriminate|].
  injection Hl as <-. apply List.filter_In in Hin as [Hin Hsat].
  apply list_elem_of_In, list_elem_of_lookup in Hin as [i Hi].
  pose proof (findIndex_unique _ i r Hnd Hi) as Hf.
  unfold Criteria.dateError in Hde. rewrite Hd, Ht in Hde. cbn [andb] in Hde.
  destruct (validateDate now (str (Query.date query))) eqn:Hv; [|discriminate].
  unfold Criteria.satisfies, Criteria.requestedGuests in Hsat.
  rewrite Hd, Ht, Hng, Hpg in Hsat. cbn [andb] in Hsat.
  assert ((0 <? g) = true) as Hpos' by lia. rewrite Hpos' in Hsat.
  apply andb_true_iff in Hsat as [Hsat Hcap].
  apply andb_true_iff in Hsat as [Hsat _].
  apply andb_true_iff in Hsat as [Hsat _].
  apply andb_true_iff in Hsat as [Hsat _].
  apply andb_true_iff in Hsat as [_ Hopen].
  unfold byAvailability in Hopen. unfold byCapacity in Hcap.
  apply Z.leb_le in Hcap. fold (Checks.availableCapacity r) in Hcap.
  eexists _, _. unfold reservationFor.
  rewrite (reservation_accepted now restaurantsData _ _ _ _ (id r) g i r);
    try assumption.
  all: try (exact Hpg).
  all: try (apply parseInt_frontend_id).
  all: try (split; [reflexivity|]; split; reflexivity).
  - unfold JS.truthy. apply negb_true_iff, String.eqb_neq.
    intros E. pose proof (parseInt_frontend_id r) as Hp. rewrite E in Hp.
    discriminate Hp.
  - unfold JS.truthy, JS.truthy_str, str in *.
    destruct (Query.numGuests query); [exact Hng|discriminate Hng].
Qed.

Lemma two_reservations_add_up_witness :
  exists created,
    post_api_reservations wednesdayNoon seed (reservation 1 30)
    = (inr created, [set_currGuests 30 chefYam; mamaRoma; shakshukaHouse]).
Proof.
  destruct (two_reservations_add_up wednesdayNoon seed (reservation 1 10)
              (JS.Number 20) (JS.Number 30)
              {| Created.restaurantId := 1; Created.date := monday;
                 Created.time := "13:00"; Created.numGuests := 10;
                 Created.restaurant :=
                   transformRestaurantToFrontendFormat
                     (set_currGuests 10 chefYam) |}
              {| Created.restaurantId := 1; Created.date := monday;
                 Created.time := "13:00"; Created.numGuests := 20;
                 Created.restaurant :=
                   transformRestaurantToFrontendFormat
                     (set_currGuests 30 chefYam) |}
              [set_currGuests 10 chefYam; mamaRoma; shakshukaHouse]
              [set_currGuests 30 chefYam; mamaRoma; shakshukaHouse])
    as (created & H & _).
  - repeat constructor; vm_compute; intros H; discriminate H.
  - vm_compute. reflexivity.
  - vm_compute. reflexivity.
  - vm_compute. intros H. discriminate H.
  - vm_compute. reflexivity.
  - exists created. exact H.
Defined.

Lemma search_result_can_be_reserved_witness :
  exists created restaurantsData',
    post_api_reservations wednesdayNoon seed
      (reservationFor mondayLunch (transformRestaurantToFrontendFormat chefYam))
    = (inr created, restaurantsData')
    /\ Created.restaurantId created = 1
    /\ Created.numGuests created = 4.
Proof.
  apply (search_result_can_be_reserved wednesdayNoon seed mondayLunch
           [chefYam; shakshukaHouse] chefYam 4).
  - apply (bool_decide_unpack _). vm_compute. exact I.
  - vm_compute. reflexivity.
  - simpl. tauto.
  - reflexivity.
  - reflexivity.
  - reflexivity.
  - vm_compute. reflexivity.
  - lia.
Defined.



(** ** More on dates and opening hours *)

(** X16.  A date that [validateDate] accepts always has a weekday: for it
    [getDayOfWeek] returns one of the seven names of [daysOfWeek], never
    [undefined], so the entry looked up in [openingHours] is that of a real
    day. *)
Theorem accepted_date_has_weekday (now : Z) (dateString : string) :
  validateDate now dateString = Valid ->
  exists dayName,
    getDayOfWeek dateString = Some dayName /\ In dayName daysOfWeek
    /\ property_key (getDayOfWeek dateString) = dayName.
Proof.
  unfold validateDate, getDayOfWeek.
  destruct (JS.dateRegex_test dateString); [|discriminate]. cbn [negb].
  destruct (JS.Date_getTime dateString) as [t|]; [|discriminate]. intros _.
  assert (Z.to_nat (JS.getUTCDay t) < length daysOfWeek)%nat as Hlt.
  { unfold JS.getUTCDay. simpl.
    pose proof (Z.mod_pos_bound (t / JS.msPerDay + 4) 7). lia. }
  apply lookup_lt_is_Some in Hlt as [d Hd]. exists d.
  split; [exact Hd|]. split.
  - apply list_elem_of_In. eapply list_elem_of_lookup_2. exact Hd.
  - rewrite Hd. reflexivity.
Qed.

(** X17.  The verdict of [validateDate] depends on the clock only through
    the current UTC day, and a date accepted now was accepted at every
    earlier time. *)
Theorem validateDate_by_day (now now' : Z) (dateString : string) :
  (now / JS.msPerDay = now' / JS.msPerDay ->
   validateDate now dateString = validateDate now' dateString)
  /\ (now' <= now -> validateDate now dateString = Valid ->
      validateDate now' dateString = Valid).
Proof.
  unfold validateDate, JS.setUTCHours0. split.
  - intros ->. reflexivity.
  - intros Hle.
    destruct (JS.dateRegex_test dateString); cbn [negb]; [|discriminate].
    destruct (JS.Date_getTime dateString) as [t|]; [|discriminate].
    assert (now' / JS.msPerDay <= now / JS.msPerDay) as Hdiv
      by (apply Z.div_le_mono; [reflexivity|exact Hle]).
    destruct (t / JS.msPerDay * JS.msPerDay
              <? now / JS.msPerDay * JS.msPerDay) eqn:E; [discriminate|].
    intros _.
    destruct (t / JS.msPerDay * JS.msPerDay
              <? now' / JS.msPerDay * JS.msPerDay) eqn:E'; [|reflexivity].
    apply Z.ltb_ge in E. apply Z.ltb_lt in E'. unfold JS.msPerDay in *. lia.
Qed.

Lemma ltb_irrefl s : JS.lt s s = false.
Proof.
  destruct (JS.lt s s) eqn:E; [|reflexivity].
  apply lt_lex in E. exfalso. revert E.
  induction s as [|c s IH]; intros H; inversion H; subst; [lia|auto].
Qed.

(** X18.  An entry whose opening and closing times are the same string is
    never open: whatever the time asked, [isRestaurantOpen] answers false,
    so a venue cannot be declared open around the clock by equal bounds. *)
Theorem equal_bounds_never_open (restaurant : Restaurant) (date time : string)
    (h : DayHours) :
  hoursToday restaurant date = Some h -> open h = close h ->
  isRestaurantOpen restaurant date time = false.
Proof.
  intros Hh Heq. rewrite isRestaurantOpen_hoursToday, Hh.
  unfold withinHours. rewrite Heq, ltb_irrefl. unfold JS.ge, JS.lt.
  destruct (closed h), (String.ltb time (close h)); reflexivity.
Qed.

(** ** More on the search *)

Lemma filter_again {A} (p : A -> bool) (l : list A) :
  List.filter p (List.filter p l) = List.filter p l.
Proof.
  rewrite filter_twice. apply List.filter_ext. intros x.
  destruct (p x); reflexivity.
Qed.

(** X19.  The search works record by record: the result for two arrays put
    end to end is the two results put end to end, and searching a result
    again with the same query returns it unchanged. *)
Theorem search_composes (now : Z) (data1 data2 : list Restaurant)
    (query : Query.t) (l1 l2 : list Restaurant) :
  filteredData now data1 query = inr l1 ->
  filteredData now data2 query = inr l2 ->
  filteredData now (data1 ++ data2)%list query = inr (l1 ++ l2)%list
  /\ filteredData now l1 query = inr l1.
Proof.
  rewrite !filteredData_satisfies.
  destruct (Criteria.dateError now query); [discriminate|].
  intros [= <-] [= <-]. split.
  - rewrite List.filter_app. reflexivity.
  - rewrite filter_again. reflexivity.
Qed.

(** X20.  The cuisine and the location filters are substring tests that
    ignore case: a restaurant passes when the query, in lower case, occurs
    somewhere in its cuisine, or in its address written as text, in lower
    case. *)
Theorem text_filters_are_substring_tests (text : string)
    (restaurant : Restaurant) :
  (byCuisine text restaurant = true
   <-> exists a b,
         toLowerCase (cuisine restaurant) = a ++ toLowerCase text ++ b)
  /\ (byLocation text restaurant = true
      <-> exists a b,
            toLowerCase (renderAddress (address restaurant))
            = a ++ toLowerCase text ++ b).
Proof.
  unfold byCuisine, byLocation. split; apply includes_substring.
Qed.

Lemma accepted_date_has_weekday_witness :
  exists dayName,
    getDayOfWeek monday = Some dayName /\ In dayName daysOfWeek
    /\ property_key (getDayOfWeek monday) = dayName.
Proof.
  apply (accepted_date_has_weekday wednesdayNoon monday).
  vm_compute. reflexivity.
Defined.

Lemma validateDate_by_day_witness :
  validateDate wednesdayNoon monday = validateDate (wednesdayNoon + 3600000) monday
  /\ validateDate 0 monday = Valid.
Proof.
  destruct (validateDate_by_day wednesdayNoon (wednesdayNoon + 3600000) monday)
    as [H1 _].
  destruct (validateDate_by_day wednesdayNoon 0 monday) as [_ H2].
  split.
  - apply H1. vm_compute. reflexivity.
  - apply H2; [unfold wednesdayNoon; lia|vm_compute; reflexivity].
Defined.

Lemma equal_bounds_never_open_witness :
  isRestaurantOpen roundTheClock monday "13:00" = false.
Proof.
  apply (equal_bounds_never_open roundTheClock monday "13:00"
           (hours "00:00" "00:00")).
  - vm_compute. reflexivity.
  - reflexivity.
Defined.

Lemma search_composes_witness :
  filteredData wednesdayNoon ([chefYam] ++ [mamaRoma; shakshukaHouse])
    italianQuery = inr ([] ++ [mamaRoma])%list
  /\ filteredData wednesdayNoon [] italianQuery = inr [].
Proof.
  apply (search_composes wednesdayNoon [chefYam] [mamaRoma; shakshukaHouse]
           italianQuery [] [mamaRoma]); vm_compute; reflexivity.
Defined.

(** ** Addresses *)

Section Chars.
Variable p : ascii -> bool.

Lemma holds_trim_start s : holds p s -> holds p (JS.trim_start s).
Proof.
  unfold holds, chars. induction s as [|c s IH]; simpl; [auto|].
  intros H. destruct (JS.is_space c); [|exact H].
  apply IH. now inversion H.
Qed.

Lemma holds_trim_end s : holds p s -> holds p (trim_end s).
Proof.
  unfold holds, chars. induction s as [|c s IH]; [auto|].
  intros H. inversion H as [|? ? Hc Hs]; subst. specialize (IH Hs).
  rewrite trim_end_cons. destruct (_ =? _)%nat.
  - destruct (JS.is_space c); simpl; [constructor|].
    constructor; [exact Hc|constructor].
  - simpl. constructor; assumption.
Qed.

Lemma holds_trim s : holds p s -> holds p (trim s).
Proof. intros H. apply holds_trim_end, holds_trim_start, H. Qed.

Lemma holds_app s t : holds p s -> holds p t -> holds p (s ++ t).
Proof.
  unfold holds, chars. induction s as [|c s IH]; simpl; [auto|].
  intros Hs Ht. inversion Hs; subst. constructor; auto.
Qed.
End Chars.

Lemma noDigit_holds s : noDigit s <-> holds notDigit s.
Proof.
  unfold noDigit, holds, notDigit.
  split; intros H; (eapply Forall_impl; [exact H|]); intros c; simpl;
    destruct (JS.is_digit c); simpl; intros Hc;
    first [reflexivity|discriminate Hc].
Qed.

Lemma noComma_holds s : noComma s <-> holds notComma s.
Proof.
  unfold noComma, holds, notComma.
  split; intros H; (eapply Forall_impl; [exact H|]); intros c; simpl;
    destruct (JS.is_char c ","); simpl; intros Hc;
    first [reflexivity|discriminate Hc].
Qed.

Lemma removeDigits_noDigit s : noDigit (removeDigits s).
Proof.
  unfold noDigit, chars. induction s as [|c s IH]; simpl; [constructor|].
  destruct (JS.is_digit c) eqn:E; [exact IH|]. simpl. constructor; assumption.
Qed.

Lemma leadingDigits_allDigits s : allDigits (leadingDigits s).
Proof.
  unfold allDigits, chars. induction s as [|c s IH]; simpl; [constructor|].
  destruct (JS.is_digit c) eqn:E; simpl; constructor; assumption.
Qed.

Lemma firstDigits_allDigits s : allDigits (firstDigits s).
Proof.
  induction s as [|c s IH]; simpl; [constructor|].
  destruct (JS.is_digit c) eqn:E; [|exact IH].
  unfold allDigits, chars. simpl. constructor; [exact E|].
  apply leadingDigits_allDigits.
Qed.

Lemma split_comma_noComma s : Forall noComma (split_comma s).
Proof.
  induction s as [|c s IH]; simpl.
  - repeat constructor.
  - destruct (JS.is_char c ",") eqn:E.
    + constructor; [constructor|exact IH].
    + destruct (split_comma s) as [|p ps]; [repeat constructor; exact E|].
      inversion IH; subst. constructor; [|assumption].
      unfold noComma, chars. simpl. constructor; assumption.
Qed.

Lemma split_comma_single s : noComma s -> split_comma s = [s].
Proof.
  unfold noComma, chars. induction s as [|c s IH]; simpl; [reflexivity|].
  intros H. inversion H as [|? ? Hc Hs]; subst. rewrite Hc, (IH Hs).
  reflexivity.
Qed.

Lemma last_cases {A} (l : list A) (d : A) :
  List.last l d = d \/ In (List.last l d) l.
Proof.
  induction l as [|x l IH]; [left; reflexivity|].
  destruct l as [|y l]; [right; left; reflexivity|].
  destruct IH as [IH|IH]; [left|right; right]; exact IH.
Qed.

(** X21.  Whatever the text, the street that [parseAddress] returns holds no
    digit and is trimmed, and the number it returns is made of digits only:
    every digit of the street part beyond its first run is dropped. *)
Theorem parseAddress_street_and_number (addressString : string) :
  noDigit (Parsed.street (parseAddress addressString))
  /\ trim (Parsed.street (parseAddress addressString))
     = Parsed.street (parseAddress addressString)
  /\ allDigits (Parsed.number (parseAddress addressString)).
Proof.
  unfold parseAddress.
  destruct (2 <=? length (map trim (split_comma addressString)))%nat;
    cbn [Parsed.street Parsed.number].
  - split; [|split; [apply trim_idem|apply firstDigits_allDigits]].
    apply noDigit_holds, holds_trim, noDigit_holds, removeDigits_noDigit.
  - split; [|split; [apply trim_idem|apply firstDigits_allDigits]].
    apply noDigit_holds, holds_trim, noDigit_holds, removeDigits_noDigit.
Qed.

(** X22.  The city that [parseAddress] returns is the text after the last
    comma, trimmed: it holds no comma and no white space at its ends, and
    it is empty when the text has no comma. *)
Theorem parseAddress_city (addressString : string) :
  noComma (Parsed.city (parseAddress addressString))
  /\ trim (Parsed.city (parseAddress addressString))
     = Parsed.city (parseAddress addressString)
  /\ (noComma addressString ->
      Parsed.city (parseAddress addressString) = EmptyString).
Proof.
  unfold parseAddress.
  destruct (2 <=? length (map trim (split_comma addressString)))%nat eqn:E;
    cbn [Parsed.city].
  - destruct (last_cases (map trim (split_comma addressString)) EmptyString)
      as [->|Hin].
    + split; [constructor|]. split; [reflexivity|]. reflexivity.
    + apply in_map_iff in Hin as (part & <- & Hpart).
      pose proof (split_comma_noComma addressString) as Hall.
      rewrite Forall_forall in Hall.
      apply list_elem_of_In in Hpart. specialize (Hall part Hpart).
      split; [apply noComma_holds, holds_trim, noComma_holds, Hall|].
      split; [|].
      * apply trim_idem.
      * intros Hno. rewrite (split_comma_single _ Hno) in E. discriminate E.
  - split; [constructor|]. split; reflexivity.
Qed.

Lemma parseAddress_city_witness :
  Parsed.city (parseAddress "Ben Yehuda 45") = EmptyString.
Proof.
  destruct (parseAddress_city "Ben Yehuda 45") as (_ & _ & H).
  apply H. unfold noComma. vm_compute. repeat constructor.
Defined.

Lemma trim_end_length s : (String.length (trim_end s) <= String.length s)%nat.
Proof.
  induction s as [|c s IH]; [simpl; lia|]. rewrite trim_end_cons.
  destruct (_ =? _)%nat; [destruct (JS.is_space c)|]; simpl; lia.
Qed.

Lemma trim_start_same_length s :
  String.length (JS.trim_start s) = String.length s -> JS.trim_start s = s.
Proof.
  destruct s as [|c s]; [reflexivity|]. simpl.
  destruct (JS.is_space c); [|reflexivity].
  pose proof (trim_start_length s). simpl. lia.
Qed.

Lemma trim_fixed s : trim s = s -> JS.trim_start s = s /\ trim_end s = s.
Proof.
  intros H. unfold trim in H.
  assert (JS.trim_start s = s) as Hs.
  { apply trim_start_same_length.
    pose proof (trim_start_length s).
    pose proof (trim_end_length (JS.trim_start s)) as Hl. rewrite H in Hl.
    lia. }
  split; [exact Hs|]. now rewrite Hs in H.
Qed.

Lemma trim_end_app s t :
  trim_end t <> EmptyString -> trim_end (s ++ t) = s ++ trim_end t.
Proof.
  intros Ht. induction s as [|c s IH]; [reflexivity|].
  change (String c s ++ t) with (String c (s ++ t)).
  rewrite trim_end_cons, IH.
  change (String c s ++ trim_end t) with (String c (s ++ trim_end t)).
  destruct (s ++ trim_end t) as [|d u] eqn:E; [|reflexivity].
  destruct s; simpl in E; [contradiction|discriminate].
Qed.

Lemma trim_end_space s : trim_end (s ++ " ") = trim_end s.
Proof.
  induction s as [|c s IH]; [reflexivity|].
  change (String c s ++ " ") with (String c (s ++ " ")).
  rewrite !trim_end_cons, IH. reflexivity.
Qed.

Lemma trim_end_digits s : allDigits s -> trim_end s = s.
Proof.
  unfold allDigits, chars. induction s as [|c s IH]; [reflexivity|].
  simpl list_ascii_of_string. intros H. inversion H as [|? ? Hc Hs]; subst.
  rewrite trim_end_cons, (IH Hs).
  assert (JS.is_space c = false) as Hsp.
  { revert Hc. unfold JS.is_digit, JS.is_space.
    destruct (Nat.leb_spec 48 (nat_of_ascii c)); [|discriminate].
    intros _. apply orb_false_iff. split.
    - apply andb_false_iff. right. apply Nat.leb_gt. lia.
    - apply Nat.eqb_neq. lia. }
  rewrite Hsp. destruct s; reflexivity.
Qed.

Lemma firstDigits_skip s t : noDigit s -> firstDigits (s ++ t) = firstDigits t.
Proof.
  unfold noDigit, chars. induction s as [|c s IH]; [reflexivity|].
  simpl. intros H. inversion H as [|? ? Hc Hs]; subst. rewrite Hc.
  exact (IH Hs).
Qed.

Lemma leadingDigits_all s : allDigits s -> leadingDigits s = s.
Proof.
  unfold allDigits, chars. induction s as [|c s IH]; [reflexivity|].
  simpl. intros H. inversion H as [|? ? Hc Hs]; subst. rewrite Hc, (IH Hs).
  reflexivity.
Qed.

Lemma firstDigits_all s : allDigits s -> firstDigits s = s.
Proof.
  destruct s as [|c s]; [reflexivity|]. unfold allDigits, chars. simpl.
  intros H. inversion H as [|? ? Hc Hs]; subst. rewrite Hc.
  now rewrite leadingDigits_all.
Qed.

Lemma removeDigits_app s t :
  removeDigits (s ++ t) = removeDigits s ++ removeDigits t.
Proof.
  induction s as [|c s IH]; [reflexivity|]. simpl.
  destruct (JS.is_digit c); simpl; now rewrite IH.
Qed.

Lemma removeDigits_none s : noDigit s -> removeDigits s = s.
Proof.
  unfold noDigit, chars. induction s as [|c s IH]; [reflexivity|].
  simpl. intros H. inversion H as [|? ? Hc Hs]; subst. rewrite Hc, (IH Hs).
  reflexivity.
Qed.

Lemma removeDigits_all s : allDigits s -> removeDigits s = EmptyString.
Proof.
  unfold allDigits, chars. induction s as [|c s IH]; [reflexivity|].
  simpl. intros H. inversion H as [|? ? Hc Hs]; subst. rewrite Hc.
  exact (IH Hs).
Qed.

Lemma split_comma_app a b :
  noComma a -> split_comma (a ++ String "," b) = a :: split_comma b.
Proof.
  unfold noComma, chars. induction a as [|c a IH]; [reflexivity|].
  simpl. intros H. inversion H as [|? ? Hc Ha]; subst. rewrite Hc, (IH Ha).
  reflexivity.
Qed.

Lemma append_assoc (a b c : string) : (a ++ b) ++ c = a ++ (b ++ c).
Proof.
  induction a as [|x a IH]; [reflexivity|].
  change (String x ((a ++ b) ++ c) = String x (a ++ (b ++ c))).
  f_equal. exact IH.
Qed.

Lemma allDigits_noComma s : allDigits s -> noComma s.
Proof.
  unfold allDigits, noComma. intros Hs.
  eapply List.Forall_impl; [|exact Hs]. intros c.
  unfold JS.is_digit, JS.is_char. intros H.
  apply andb_true_iff in H as [H1 H2].
  apply Nat.leb_le in H1. apply Nat.eqb_neq.
  change (nat_of_ascii ",") with 44%nat. lia.
Qed.

(** X23.  An address written as text by the location filter is read back by
    [parseAddress]: for a trimmed, non-empty street without digits or
    commas, a number made of one or more digits and a trimmed city without
    commas, parsing [street number, city] returns the three parts. *)
Theorem parseAddress_reads_rendered_address (street number city : string) :
  noDigit street -> noComma street -> trim street = street ->
  street <> EmptyString ->
  allDigits number -> number <> EmptyString ->
  noComma city -> trim city = city ->
  parseAddress (renderAddress (AddressObject street (Some number) city))
  = {| Parsed.street := street; Parsed.number := number; Parsed.city := city |}
  /\ transformAddress
       (AddressText (renderAddress (AddressObject street (Some number) city)))
     = AddressObject street (Some number) city.
Proof.
  intros Hsd Hsc Hst Hsne Hnd Hnne Hcc Hct.
  assert (parseAddress (renderAddress (AddressObject street (Some number) city))
          = {| Parsed.street := street; Parsed.number := number;
               Parsed.city := city |}) as Hparse.
  2:{ split; [exact Hparse|]. unfold transformAddress. rewrite Hparse.
      reflexivity. }
  destruct (trim_fixed street Hst) as [Hst1 Hst2].
  destruct street as [|s0 street']; [congruence|].
  pose proof (trim_start_fixed _ _ Hst1) as Hs0.
  set (street := String s0 street') in *.
  set (A := street ++ " " ++ number).
  assert (renderAddress (AddressObject street (Some number) city)
          = A ++ String "," (" " ++ city)) as ->.
  { unfold renderAddress, A. cbn [default from_option Datatypes.id].
    rewrite (append_assoc street). reflexivity. }
  assert (noComma A) as HAc.
  { apply noComma_holds. unfold A. apply holds_app;
      [apply noComma_holds, Hsc|].
    apply (holds_app _ " "); [repeat constructor|].
    apply noComma_holds, allDigits_noComma, Hnd. }
  assert (trim A = A) as HAt.
  { unfold trim. assert (JS.trim_start A = A) as ->.
    { unfold A, street. simpl. rewrite Hs0. reflexivity. }
    unfold A. rewrite trim_end_app.
    - rewrite trim_end_app; [now rewrite (trim_end_digits _ Hnd)|].
      now rewrite (trim_end_digits _ Hnd).
    - rewrite trim_end_app; rewrite (trim_end_digits _ Hnd);
        [discriminate|exact Hnne]. }
  assert (trim (" " ++ city) = city) as Hcity.
  { unfold trim. simpl. exact Hct. }
  assert (noComma (" " ++ city)) as Hcc'.
  { unfold noComma, chars. simpl. constructor; [reflexivity|exact Hcc]. }
  unfold parseAddress.
  rewrite (split_comma_app _ _ HAc), (split_comma_single _ Hcc').
  cbn [map length Nat.leb List.last removelast join].
  rewrite HAt, Hcity. f_equal.
  - unfold A. rewrite !removeDigits_app, (removeDigits_none _ Hsd),
      (removeDigits_all _ Hnd).
    unfold trim. assert (JS.trim_start (street ++ removeDigits " " ++ "")
                         = street ++ " ") as ->.
    { unfold street. simpl. rewrite Hs0. reflexivity. }
    rewrite trim_end_space. exact Hst2.
  - unfold A. rewrite (firstDigits_skip _ _ Hsd). simpl.
    apply (firstDigits_all _ Hnd).
Qed.

Lemma parseAddress_reads_rendered_address_witness :
  parseAddress "Ben Yehuda 45, Jerusalem"
  = {| Parsed.street := "Ben Yehuda"; Parsed.number := "45";
       Parsed.city := "Jerusalem" |}.
Proof.
  apply (parseAddress_reads_rendered_address "Ben Yehuda" "45" "Jerusalem");
    try reflexivity; try discriminate;
    unfold noDigit, noComma, allDigits; vm_compute; repeat constructor.
Defined.
